(** * youtubeclipper: a shallow embedding of [clipper.py]

    The development follows the layout of the Python module:

    - [Py]: the few builtins of the language that the module relies on
      ([str.strip], [str.split], [in], [int], [str], [", ".join], ...);
    - the exception type and the result/state monads;
    - the range parser ([parse_time], [parse_clip_ranges]);
    - the availability classification ([_available_heights]);
    - the format selector ([_format_selector]);
    - the process layer ([_run_command], [_download_source], [_run_ffmpeg])
      and the orchestrator ([clip_url]) over an explicit world;
    - the theorems, one per property of the specification.

    Python text is modelled by [string]; a character is a code point below
    256.  Integers are unbounded, as in Python, hence [Z].  A call returns a
    value or raises; the errors of the operating system ([OSError]) are not
    modelled. *)

From Stdlib Require Import ZArith Ascii DecimalString DecimalZ DecimalN DecimalPos.
From stdpp Require Import gmap strings list sorting.

Local Open Scope Z_scope.

(** ** Builtins of the language *)

Module Py.

(** [str.isspace] on one character (code points below 256): the ASCII
    controls 9-13 and 28-31, the space, NEL (0x85) and NBSP (0xA0). *)
Definition isspace (c : ascii) : bool :=
  let n := N_of_ascii c in
  ((9 <=? n) && (n <=? 13) || (28 <=? n) && (n <=? 32)
   || (n =? 133) || (n =? 160))%N.

Fixpoint lstrip (s : string) : string :=
  match s with
  | "" => ""
  | String c r => if isspace c then lstrip r else s
  end.

Fixpoint rstrip (s : string) : string :=
  match s with
  | "" => ""
  | String c r =>
      match rstrip r with
      | "" => if isspace c then "" else String c ""
      | r' => String c r'
      end
  end.

(** [s.strip()] *)
Definition strip (s : string) : string := rstrip (lstrip s).

(** [c in s] for a one-character needle. *)
Fixpoint contains (c : ascii) (s : string) : bool :=
  match s with
  | "" => false
  | String d r => Ascii.eqb d c || contains c r
  end.

(** [s.count(c)] for a one-character needle. *)
Fixpoint count (c : ascii) (s : string) : nat :=
  match s with
  | "" => O
  | String d r => ((if Ascii.eqb d c then 1 else 0) + count c r)%nat
  end.

(** [s.split(sep)] for a one-character separator: never the empty list. *)
Fixpoint split (sep : ascii) (s : string) : list string :=
  match s with
  | "" => [""]
  | String c r =>
      if Ascii.eqb c sep then "" :: split sep r
      else match split sep r with
           | h :: t => String c h :: t
           | [] => [String c ""]
           end
  end.

(** [s.split(sep, 1)]: one cut, at the first separator. *)
Fixpoint split1 (sep : ascii) (s : string) : list string :=
  match s with
  | "" => [""]
  | String c r =>
      if Ascii.eqb c sep then [""; r]
      else match split1 sep r with
           | h :: t => String c h :: t
           | [] => [String c ""]
           end
  end.

(** [sep.join(l)] *)
Fixpoint join (sep : string) (l : list string) : string :=
  match l with
  | [] => ""
  | [x] => x
  | x :: r => x +:+ sep +:+ join sep r
  end.

(** [s.startswith(p)] *)
Fixpoint startswith (s p : string) {struct p} : bool :=
  match p with
  | "" => true
  | String a p' =>
      match s with
      | "" => false
      | String b s' => Ascii.eqb b a && startswith s' p'
      end
  end.

(** [s.lstrip(".")], for a one-character set. *)
Fixpoint lstrip_char (c : ascii) (s : string) : string :=
  match s with
  | "" => ""
  | String d r => if Ascii.eqb d c then lstrip_char c r else s
  end.

Definition digit_value (c : ascii) : option Z :=
  let n := N_of_ascii c in
  if ((48 <=? n) && (n <=? 57))%N then Some (Z.of_N n - 48) else None.

(** The digit part of an integer literal: digits, with single underscores
    allowed between two digits.  [after_digit] says that the previous
    character was a digit. *)
Fixpoint int_digits (after_digit : bool) (acc : Z) (s : string) : option Z :=
  match s with
  | "" => if after_digit then Some acc else None
  | String c r =>
      match digit_value c with
      | Some d => int_digits true (10 * acc + d) r
      | None =>
          if after_digit && Ascii.eqb c "_" then int_digits false acc r
          else None
      end
  end.

(** [int(s)] in base 10, for a text like those the module passes, which
    are stripped already: an optional sign and the digit part; [None] stands
    for [ValueError].  Whitespace left around the text is skipped as
    [strip] does.  (The interpreter's configurable cap on the number of
    digits is not part of the model.) *)
Definition int (s : string) : option Z :=
  match strip s with
  | "" => None
  | String c r =>
      if Ascii.eqb c "-" then Z.opp <$> int_digits false 0 r
      else if Ascii.eqb c "+" then int_digits false 0 r
      else int_digits false 0 (String c r)
  end.

(** [str(n)] for an integer. *)
Definition str (n : Z) : string := NilZero.string_of_int (Z.to_int n).

(** [", ".join(str(h) for h in l) or "none"] is written with [or_else]. *)
Definition or_else (s d : string) : string :=
  match s with "" => d | _ => s end.

End Py.

(** ** Exceptions and results *)

(** One constructor per [raise ClipperError(...)] site of the module (the two
    sites of [parse_time] that share a message share a constructor), with the
    values interpolated in the message. *)
Inductive ClipperError : Type :=
  | InvalidTimestamp
  | NegativeTimestamp
  | NoRangesProvided
  | MalformedRange (item : string)
  | NonPositiveDuration
  | MissingDependency (missing : list string)
  | InvalidQuality
  | MetadataFetchFailed
  | MetadataParseFailed
  | QualityUnavailable (quality_height : Z) (available : list Z)
  | QualityUnavailableFastPath (quality_height : Z) (available all_heights : list Z)
  | DownloadFailed
  | NoSourceFileProduced
  | OutputFormatMismatch (source_ext output_format : string)
  | OutputAlreadyExists (output_path : string)
  | ExtractionFailed.

Definition heights_text (l : list Z) : string :=
  Py.or_else (Py.join ", " (map Py.str l)) "none".

(** The text carried by the exception. *)
Definition message (e : ClipperError) : string :=
  match e with
  | InvalidTimestamp => "Timestamps must be whole seconds (e.g., 120)."
  | NegativeTimestamp => "Timestamps must be non-negative."
  | NoRangesProvided => "No clip ranges provided."
  | MalformedRange item =>
      "Invalid clip range '" +:+ item +:+ "'. Use the format start-end, e.g., 10-30."
  | NonPositiveDuration => "Clip end must be greater than start."
  | MissingDependency missing =>
      "Missing dependencies on PATH: " +:+ Py.join ", " missing +:+ "."
  | InvalidQuality => "Quality height must be a positive integer."
  | MetadataFetchFailed => "Failed to inspect available formats with yt-dlp."
  | MetadataParseFailed => "Failed to parse format data from yt-dlp."
  | QualityUnavailable q available =>
      "Requested " +:+ Py.str q +:+ "p is not available. "
      +:+ "Available video heights: " +:+ heights_text available +:+ ". "
      +:+ "Use --height to pick one of the available heights."
  | QualityUnavailableFastPath q available all_heights =>
      "Requested " +:+ Py.str q +:+ "p is not available for fast clipping. "
      +:+ "Available H.264 MP4 heights: " +:+ heights_text available +:+ ". "
      +:+ "Other video heights: " +:+ heights_text all_heights +:+ ". "
      +:+ "Use --height to choose an available H.264 MP4 height, or "
      +:+ "try --reencode for non-H.264 sources."
  | DownloadFailed => "Failed to download video with yt-dlp."
  | NoSourceFileProduced => "Download succeeded but no source file was found."
  | OutputFormatMismatch source_ext output_format =>
      "Source format '" +:+ source_ext +:+ "' does not match "
      +:+ "output '" +:+ output_format +:+ "'. Use --reencode or choose a matching --format."
  | OutputAlreadyExists output_path => "Output already exists: " +:+ output_path
  | ExtractionFailed => "ffmpeg failed while generating clip."
  end.

(** What a call can raise: a [ClipperError], or the [ValueError] of a tuple
    unpacking whose right-hand side has the wrong length. *)
Inductive exn : Type :=
  | Clipper (e : ClipperError)
  | ValueError.

Inductive result (A : Type) : Type :=
  | Ok (a : A)
  | Raise (e : exn).
Arguments Ok {A} a.
Arguments Raise {A} e.

Definition rbind {A B} (r : result A) (k : A → result B) : result B :=
  match r with
  | Ok a => k a
  | Raise e => Raise e
  end.

Notation "'let?' x ':=' r 'in' k" := (rbind r (fun x => k))
  (at level 10, x pattern, r at level 100, k at level 200).

(** ** RangeParser *)

Definition ClipRange : Type := Z * Z.

Definition parse_time (value : string) : result Z :=
  let value := Py.strip value in
  if Py.contains ":" value then Raise (Clipper InvalidTimestamp)
  else match Py.int value with
       | None => Raise (Clipper InvalidTimestamp)
       | Some seconds =>
           if seconds <? 0 then Raise (Clipper NegativeTimestamp)
           else Ok seconds
       end.

Definition _validate_range (start end_ : Z) : result unit :=
  if end_ <=? start then Raise (Clipper NonPositiveDuration) else Ok tt.

(** The body of the [for item in items] loop of [parse_clip_ranges]. *)
Definition parse_item (item : string) : result ClipRange :=
  if negb (Py.contains "-" item) then Raise (Clipper (MalformedRange item))
  else match Py.split1 "-" item with
       | [start_text; end_text] =>
           let? start := parse_time start_text in
           let? end_ := parse_time end_text in
           let? _ := _validate_range start end_ in
           Ok (start, end_)
       | _ => Raise ValueError
       end.

(** The loop itself, with its accumulator [parsed]. *)
Fixpoint parse_items (items : list string) (parsed : list ClipRange)
  : result (list ClipRange) :=
  match items with
  | [] => Ok parsed
  | item :: rest =>
      let? r := parse_item item in
      parse_items rest (parsed ++ [r])
  end.

(** [[item.strip() for item in ranges.split(",") if item.strip()]] *)
Definition range_items (ranges : string) : list string :=
  omap (fun item => match Py.strip item with
                    | "" => None
                    | s => Some s
                    end)
       (Py.split "," ranges).

Definition parse_clip_ranges (ranges : string) : result (list ClipRange) :=
  match range_items ranges with
  | [] => Raise (Clipper NoRangesProvided)
  | items => parse_items items []
  end.

(** ** AvailabilityInspector: the metadata document *)

(** One entry of the [formats] list of the metadata document, as the
    retrieval engine documents it: each field may be missing ([dict.get]
    then gives [None]). *)
Record Format : Type := mkFormat {
  height : option Z;
  vcodec : option string;
  ext : option string
}.

(** The document itself; [formats = None] when the key is missing, in which
    case [data.get("formats", [])] is the empty list. *)
Record Metadata : Type := mkMetadata {
  formats : option (list Format)
}.

(** One turn of the [for fmt in formats] loop of [_available_heights], on
    the two sets [(h264_mp4, all_video)]. *)
Definition heights_step (acc : gset Z * gset Z) (fmt : Format) : gset Z * gset Z :=
  let '(h264_mp4, all_video) := acc in
  match height fmt, vcodec fmt with
  | None, _ | Some 0, _ | _, None => acc
  | Some h, Some vc =>
      if String.eqb vc "none" then acc
      else
        let all_video := {[h]} ∪ all_video in
        if negb (bool_decide (ext fmt = Some "mp4")) then (h264_mp4, all_video)
        else if Py.startswith vc "avc1" then ({[h]} ∪ h264_mp4, all_video)
        else (h264_mp4, all_video)
  end.

(** [sorted(s)] for a set of integers. *)
Definition sorted (s : gset Z) : list Z := merge_sort Z.le (elements s).

(** The classification of [_available_heights], from the parsed document. *)
Definition classify_heights (data : Metadata) : list Z * list Z :=
  let formats := default [] (formats data) in
  let '(h264_mp4, all_video) := foldl heights_step (∅, ∅) formats in
  (sorted h264_mp4, sorted all_video).

(** ** FormatSelector *)

Definition _format_selector (height : Z) (reencode : bool) : string * option string :=
  if reencode then
    ("bv*[height=" +:+ Py.str height +:+ "]+ba/b[height=" +:+ Py.str height +:+ "]",
     None)
  else
    ("bv*[vcodec^=avc1][ext=mp4][height=" +:+ Py.str height +:+ "]"
     +:+ "+ba[acodec^=mp4a]/b[ext=mp4][height=" +:+ Py.str height +:+ "]",
     Some "mp4").

(** ** The world: file system, clock, processes *)

(** A path is the text of a [pathlib.Path]; a directory path carries no
    trailing separator, and [d / name] appends one component. *)
Definition Path : Type := string.

Definition path_join (d : Path) (name : string) : Path := d +:+ "/" +:+ name.

(** [s.rpartition(c)], [None] when [c] does not occur: the text before the
    last [c] and the text after it. *)
Fixpoint rpartition (c : ascii) (s : string) : option (string * string) :=
  match s with
  | "" => None
  | String d r =>
      match rpartition c r with
      | Some (a, b) => Some (String d a, b)
      | None => if Ascii.eqb d c then Some ("", r) else None
      end
  end.

(** [Path.name]: the last component. *)
Definition path_name (p : Path) : string :=
  match rpartition "/" p with
  | Some (_, name) => name
  | None => p
  end.

(** [Path.suffix]: from the last dot of the name, when that dot is neither
    its first nor its last character. *)
Definition path_suffix (p : Path) : string :=
  match rpartition "." (path_name p) with
  | Some (String _ _ as stem, String _ _ as e) => "." +:+ e
  | _ => ""
  end.

(** [p] is the directory [d] or lies below it. *)
Definition within (d p : Path) : bool :=
  String.eqb p d || Py.startswith p (d +:+ "/").

(** What the program can observe of the machine, apart from the processes
    it starts. *)
Record Sys : Type := mkSys {
  files : gset Path;          (** the paths that exist *)
  executables : gset string;  (** the names [shutil.which] resolves *)
  now : string;               (** [datetime.now().strftime("%Y%m%d_%H%M%S_%f")] *)
  entropy : string            (** the random part of the next [mkdtemp] name *)
}.

Definition Cmd : Type := list string.

(** The world threads the machine and the list of the processes started so
    far, oldest first. *)
Record World : Type := mkWorld {
  sys : Sys;
  calls : list Cmd
}.

Definition M (A : Type) : Type := World → result A * World.

Definition ret {A} (a : A) : M A := fun w => (Ok a, w).
Definition raise {A} (e : ClipperError) : M A := fun w => (Raise (Clipper e), w).
Definition bind {A B} (m : M A) (k : A → M B) : M B :=
  fun w => match m w with
           | (Ok a, w') => k a w'
           | (Raise e, w') => (Raise e, w')
           end.

Notation "'let!' x ':=' m 'in' k" := (bind m (fun x => k))
  (at level 10, x pattern, m at level 100, k at level 200).

Definition set_files (f : gset Path → gset Path) (w : World) : World :=
  {| sys := {| files := f (files (sys w));
               executables := executables (sys w);
               now := now (sys w);
               entropy := entropy (sys w) |};
     calls := calls w |}.

(** [p.exists()] *)
Definition path_exists (p : Path) (w : World) : bool :=
  bool_decide (p ∈ files (sys w)).

(** [outdir.mkdir(parents=True, exist_ok=True)] *)
Definition mkdir (d : Path) : M unit :=
  fun w => (Ok tt, set_files (fun fs => {[d]} ∪ fs) w).

(** [shutil.rmtree(d)]: [d] and everything below it disappear. *)
Definition rmtree (d : Path) (w : World) : World :=
  set_files (filter (fun p => within d p = false)) w.

(** The name [tempfile] gives to the directory it creates in [dir]. *)
Definition tmp_path (prefix : string) (dir : Path) (w : World) : Path :=
  path_join dir (prefix +:+ entropy (sys w)).

(** [with tempfile.TemporaryDirectory(prefix=..., dir=...) as tmp: body]:
    the directory is created, the body runs, and the directory is removed
    whether the body returns or raises. *)
Definition with_TemporaryDirectory {A} (prefix : string) (dir : Path)
    (body : Path → M A) : M A :=
  fun w =>
    let tmp := tmp_path prefix dir w in
    let '(r, w') := body tmp (set_files (fun fs => {[tmp]} ∪ fs) w) in
    (r, rmtree tmp w').

(** [sorted(workdir.glob("source.*"))]: the children of [workdir] whose name
    starts with [source.], in lexicographic order. *)
Definition is_source_of (workdir p : Path) : bool :=
  match rpartition "/" p with
  | Some (d, name) => String.eqb d workdir && Py.startswith name "source."
  | None => false
  end.

Definition glob_source (workdir : Path) (w : World) : list Path :=
  merge_sort String.le
    (filter (fun p => is_source_of workdir p = true) (elements (files (sys w)))).

Section Pipeline.

(** The two external collaborators are parameters of the pipeline:
    [exec cmd s] is the exit status and the captured standard output of
    the process [cmd] started on the machine [s], with the machine it
    leaves; [json_loads] is the JSON decoder, [None] for
    [JSONDecodeError]. *)
Variable exec : Cmd → Sys → Z * string * Sys.
Variable json_loads : string → option Metadata.

(** [subprocess.run(cmd)]: the process is started and waited for. *)
Definition subprocess_run (cmd : Cmd) (w : World) : Z * string * World :=
  let '(code, out, s') := exec cmd (sys w) in
  (code, out, {| sys := s'; calls := calls w ++ [cmd] |}).

Definition _ensure_dependencies : M unit :=
  fun w =>
    match filter (fun name => name ∉ executables (sys w)) ["ffmpeg"; "yt-dlp"] with
    | [] => (Ok tt, w)
    | missing => (Raise (Clipper (MissingDependency missing)), w)
    end.

Definition _run_command (cmd : Cmd) (error : ClipperError) : M unit :=
  fun w =>
    let '(code, _, w') := subprocess_run cmd w in
    if code =? 0 then (Ok tt, w') else (Raise (Clipper error), w').

Definition download_cmd (url : string) (workdir : Path)
    (format_selector : string) (merge_output_format : option string) : Cmd :=
  ["yt-dlp"; "-f"; format_selector; "-o"; path_join workdir "source.%(ext)s";
   "--no-playlist"]
  ++ match merge_output_format with
     | Some (String _ _ as m) => ["--merge-output-format"; m]
     | _ => []
     end
  ++ [url].

Definition _download_source (url : string) (workdir : Path)
    (format_selector : string) (merge_output_format : option string) : M Path :=
  let! _ := _run_command
              (download_cmd url workdir format_selector merge_output_format)
              DownloadFailed in
  fun w =>
    match glob_source workdir w with
    | [] => raise NoSourceFileProduced w
    | candidate :: _ => ret candidate w
    end.

Definition inspect_cmd (url : string) : Cmd :=
  ["yt-dlp"; "-J"; "--no-warnings"; "--no-playlist"; url].

Definition _inspect_formats (url : string) : M Metadata :=
  fun w =>
    let '(code, out, w') := subprocess_run (inspect_cmd url) w in
    if code =? 0 then
      match json_loads out with
      | Some data => (Ok data, w')
      | None => (Raise (Clipper MetadataParseFailed), w')
      end
    else (Raise (Clipper MetadataFetchFailed), w').

Definition _available_heights (url : string) : M (list Z * list Z) :=
  let! data := _inspect_formats url in
  ret (classify_heights data).

Definition ffmpeg_cmd (source : Path) (start end_ : Z) (output_path : Path)
    (reencode : bool) : Cmd :=
  let duration := end_ - start in
  if reencode then
    ["ffmpeg"; "-hide_banner"; "-n"; "-i"; source; "-ss"; Py.str start;
     "-t"; Py.str duration; "-c:v"; "libx264"; "-c:a"; "aac";
     "-movflags"; "+faststart"; output_path]
  else
    ["ffmpeg"; "-hide_banner"; "-n"; "-ss"; Py.str start; "-i"; source;
     "-t"; Py.str duration; "-c"; "copy"; output_path].

Definition _run_ffmpeg (source : Path) (start end_ : Z) (output_path : Path)
    (reencode : bool) : M unit :=
  fun w =>
    if path_exists output_path w then raise (OutputAlreadyExists output_path) w
    else _run_command (ffmpeg_cmd source start end_ output_path reencode)
           ExtractionFailed w.

(** The name of the artifact of one range. *)
Definition clip_path (outdir : Path) (run_stamp output_format : string)
    (r : ClipRange) : Path :=
  path_join outdir
    ("clip_" +:+ Py.str r.1 +:+ "_" +:+ Py.str r.2 +:+ "_" +:+ run_stamp
     +:+ "." +:+ output_format).

(** The [for start, end in ranges] loop of [clip_url], on [outputs]. *)
Fixpoint extract_ranges (source outdir : Path) (run_stamp output_format : string)
    (reencode : bool) (ranges : list ClipRange) (outputs : list Path)
  : M (list Path) :=
  match ranges with
  | [] => ret outputs
  | r :: rest =>
      let output_path := clip_path outdir run_stamp output_format r in
      let! _ := _run_ffmpeg source r.1 r.2 output_path reencode in
      extract_ranges source outdir run_stamp output_format reencode rest
        (outputs ++ [output_path])
  end.

(** The end of the [with] block of [clip_url], from the format selection on. *)
Definition download_and_extract (url : string) (ranges : list ClipRange)
    (outdir : Path) (reencode : bool) (output_format : string)
    (quality_height : Z) (workdir : Path) (run_stamp : string) : M (list Path) :=
  let '(format_selector, merge_format) :=
    _format_selector quality_height reencode in
  let! source := _download_source url workdir format_selector merge_format in
  let source_ext := Py.lstrip_char "." (path_suffix source) in
  if negb reencode && negb (String.eqb source_ext output_format) then
    raise (OutputFormatMismatch source_ext output_format)
  else
    extract_ranges source outdir run_stamp output_format reencode ranges [].

(** The body of the [with] block of [clip_url]. *)
Definition clip_job (url : string) (ranges : list ClipRange) (outdir : Path)
    (reencode : bool) (output_format : string) (quality_height : Z)
    (workdir : Path) : M (list Path) :=
  let! run_stamp := (fun w => (Ok (now (sys w)), w)) in
  let! (h264_mp4, all_heights) := _available_heights url in
  let available := if reencode then all_heights else h264_mp4 in
  if negb (bool_decide (quality_height ∈ available)) then
    if reencode then raise (QualityUnavailable quality_height available)
    else raise (QualityUnavailableFastPath quality_height available all_heights)
  else
    download_and_extract url ranges outdir reencode output_format
      quality_height workdir run_stamp.

Definition clip_url (url : string) (ranges : list ClipRange) (outdir : Path)
    (reencode : bool) (output_format : string) (quality_height : Z)
  : M (list Path) :=
  let! _ := _ensure_dependencies in
  if quality_height <=? 0 then raise InvalidQuality
  else
    let! _ := mkdir outdir in
    with_TemporaryDirectory "youtubeclipper_" outdir
      (clip_job url ranges outdir reencode output_format quality_height).

End Pipeline.

(** ** Vocabulary of the statements *)

(** Every character of [s] satisfies [P]. *)
Fixpoint all_chars (P : ascii → bool) (s : string) : bool :=
  match s with
  | "" => true
  | String c r => P c && all_chars P r
  end.

Definition is_digit (c : ascii) : bool :=
  match Py.digit_value c with
  | Some _ => true
  | None => false
  end.

Definition nonspace (c : ascii) : bool := negb (Py.isspace c).

(** The text of a range, as an operator types it: [a-b]. *)
Definition range_text (r : ClipRange) : string :=
  Py.str r.1 +:+ "-" +:+ Py.str r.2.

(** Segment by segment, [items] parse to the ranges [rs]. *)
Definition parses_to (items : list string) (rs : list ClipRange) : Prop :=
  Forall2 (fun item r => parse_item item = Ok r) items rs.

(** The format [fmt] shows a video stream of height [h]: a height that is
    not zero and a video codec that is present. *)
Definition video_height (fmt : Format) (h : Z) : Prop :=
  height fmt = Some h ∧ h ≠ 0 ∧ ∃ vc, vcodec fmt = Some vc ∧ vc ≠ "none".

(** Moreover the stream can be copied: mp4 container, H.264 codec. *)
Definition fast_path_height (fmt : Format) (h : Z) : Prop :=
  video_height fmt h ∧ ext fmt = Some "mp4"
  ∧ ∃ vc, vcodec fmt = Some vc ∧ Py.startswith vc "avc1" = true.

(** The inventory of the specification: heights 480, 720 and 1080, of which
    only 720 is H.264 in mp4. *)
Definition inventory_doc : Metadata :=
  {| formats := Some
       [ {| height := Some 480; vcodec := Some "vp09.00.30.08"; ext := Some "webm" |};
         {| height := Some 720; vcodec := Some "avc1.64001F"; ext := Some "mp4" |};
         {| height := Some 1080; vcodec := Some "av01.0.08M.08"; ext := Some "mp4" |};
         {| height := None; vcodec := Some "none"; ext := Some "m4a" |} ] |}.

(** The format selectors of the retrieval engine, as far as the module
    writes them: alternatives separated by [/], tried in order; each
    alternative merges the streams joined by [+]; each stream is a name
    ([bv*] best video, [ba] best audio, [b] best pre-muxed file) followed by
    bracketed filters. *)
Inductive Filter : Type :=
  | HeightIs (h : Z)
  | VcodecStartsWith (tag : string)
  | AcodecStartsWith (tag : string)
  | ExtIs (container : string).

Record Stream : Type := mkStream {
  stream_name : string;
  stream_filters : list Filter
}.

Definition Selector : Type := list (list Stream).

Definition render_filter (f : Filter) : string :=
  match f with
  | HeightIs h => "[height=" +:+ Py.str h +:+ "]"
  | VcodecStartsWith tag => "[vcodec^=" +:+ tag +:+ "]"
  | AcodecStartsWith tag => "[acodec^=" +:+ tag +:+ "]"
  | ExtIs container => "[ext=" +:+ container +:+ "]"
  end.

Definition render_stream (s : Stream) : string :=
  stream_name s +:+ foldr (fun f acc => render_filter f +:+ acc) "" (stream_filters s).

Definition render_selector (sel : Selector) : string :=
  Py.join "/" (map (fun alt => Py.join "+" (map render_stream alt)) sel).

(** The plan of the specification in re-encode mode: the best video stream
    at exactly [h] plus the best audio, else the best pre-muxed stream at
    [h]; no codec and no container is imposed. *)
Definition reencode_selector (h : Z) : Selector :=
  [ [ mkStream "bv*" [HeightIs h]; mkStream "ba" [] ];
    [ mkStream "b" [HeightIs h] ] ].

(** The plan of the specification on the fast path: the best H.264 video
    stream in the target container at exactly [h] plus the best AAC-family
    audio, else the best pre-muxed stream in the target container at [h]. *)
Definition fast_path_selector (target : string) (h : Z) : Selector :=
  [ [ mkStream "bv*" [VcodecStartsWith "avc1"; ExtIs target; HeightIs h];
      mkStream "ba" [AcodecStartsWith "mp4a"] ];
    [ mkStream "b" [ExtIs target; HeightIs h] ] ].

(** The filters that impose a codec or a container. *)
Definition constrains_codec_or_container (f : Filter) : bool :=
  match f with
  | HeightIs _ => false
  | _ => true
  end.

(** The heights against which [clip_url] checks the requested one. *)
Definition comparison_set (reencode : bool) (data : Metadata) : list Z :=
  if reencode then (classify_heights data).2 else (classify_heights data).1.

(** [needle] occurs in [text]. *)
Definition occurs_in (needle text : string) : Prop :=
  ∃ before after, text = before +:+ needle +:+ after.

(** The workspace of a job started in the world [w], and the world in which
    the body of the [with] block starts: the output directory and the
    workspace exist. *)
Definition job_workdir (outdir : Path) (w : World) : Path :=
  tmp_path "youtubeclipper_" outdir w.

Definition job_world (outdir : Path) (w : World) : World :=
  set_files (fun fs => {[job_workdir outdir w]} ∪ fs)
    (set_files (fun fs => {[outdir]} ∪ fs) w).

(** [extracted exec source outdir stamp fmt reencode rs w w']: from [w],
    the ranges [rs] were extracted one after the other, each with success,
    and the world is then [w']. *)
Inductive extracted (exec : Cmd → Sys → Z * string * Sys)
    (source outdir : Path) (run_stamp output_format : string) (reencode : bool)
  : list ClipRange → World → World → Prop :=
  | extracted_nil w :
      extracted exec source outdir run_stamp output_format reencode [] w w
  | extracted_cons r rs w w1 w2 :
      _run_ffmpeg exec source r.1 r.2
        (clip_path outdir run_stamp output_format r) reencode w = (Ok tt, w1) →
      extracted exec source outdir run_stamp output_format reencode rs w1 w2 →
      extracted exec source outdir run_stamp output_format reencode (r :: rs) w w2.

(** *** Doubles of the two collaborators

    A retrieval engine that answers the metadata query with the inventory
    above and downloads [source.mp4]; an encode engine that writes its
    output file, except for a clip that starts at second 45, on which it
    fails.  The clock advances at every process. *)
Definition touch (p : Path) (s : Sys) : Sys :=
  {| files := {[p]} ∪ files s;
     executables := executables s;
     now := now s +:+ "+";
     entropy := entropy s |}.

Definition exec_double (cmd : Cmd) (s : Sys) : Z * string * Sys :=
  match cmd with
  | "yt-dlp" :: "-J" :: _ => (0, "inventory", touch "/tmp/cache" s)
  | "yt-dlp" :: _ =>
      (0, "", touch "/out/youtubeclipper_ab12cd34/source.mp4" s)
  | "ffmpeg" :: args =>
      if bool_decide ("45" ∈ args) then (1, "", touch "/tmp/log" s)
      else (0, "", touch (List.last args "") s)
  | _ => (127, "", s)
  end.

Definition json_double (out : string) : option Metadata :=
  if String.eqb out "inventory" then Some inventory_doc else None.

Definition world_double : World :=
  {| sys := {| files := ∅;
               executables := {["ffmpeg"; "yt-dlp"]};
               now := "20240101_120000_000001";
               entropy := "ab12cd34" |};
     calls := [] |}.

(** The errors that a job, as opposed to the range parser, can raise. *)
Definition is_job_error (e : ClipperError) : bool :=
  match e with
  | MissingDependency _ | InvalidQuality
  | MetadataFetchFailed | MetadataParseFailed
  | QualityUnavailable _ _ | QualityUnavailableFastPath _ _ _
  | DownloadFailed | NoSourceFileProduced
  | OutputFormatMismatch _ _ | OutputAlreadyExists _ | ExtractionFailed => true
  | _ => false
  end.

(** What the orchestrator expects of the encode engine: when it exits with
    status 0 its output file exists, and it removes no file. *)
Definition writes_output (exec : Cmd → Sys → Z * string * Sys) : Prop :=
  ∀ source start end_ output_path reencode s out s',
    exec (ffmpeg_cmd source start end_ output_path reencode) s = (0, out, s') →
    output_path ∈ files s'.

Definition keeps_files (exec : Cmd → Sys → Z * string * Sys) : Prop :=
  ∀ source start end_ output_path reencode s code out s' p,
    exec (ffmpeg_cmd source start end_ output_path reencode) s
    = (code, out, s') →
    p ∈ files s → p ∈ files s'.


Definition world_bare : World :=
  {| sys := {| files := ∅;
               executables := {["ffmpeg"]};
               now := "20240101_120000_000001";
               entropy := "ab12cd34" |};
     calls := [] |}.

(** * Facts about the builtins *)

Section CharFacts.

Local Ltac by_cases c :=
  destruct c as [[] [] [] [] [] [] [] []]; vm_compute; congruence.

Lemma digit_nonspace c : is_digit c = true → Py.isspace c = false.
Proof. by_cases c. Qed.

Lemma digit_not_minus c : is_digit c = true → Ascii.eqb c "-" = false.
Proof. by_cases c. Qed.

Lemma digit_not_plus c : is_digit c = true → Ascii.eqb c "+" = false.
Proof. by_cases c. Qed.

Lemma digit_not_comma c : is_digit c = true → Ascii.eqb c "," = false.
Proof. by_cases c. Qed.

Lemma digit_not_colon c : is_digit c = true → Ascii.eqb c ":" = false.
Proof. by_cases c. Qed.

Lemma literal_char_not_colon c :
  is_digit c = true ∨ Ascii.eqb c "_" = true → Ascii.eqb c ":" = false.
Proof. intros [H|H]; revert H; by_cases c. Qed.

Lemma literal_char_not_minus c :
  is_digit c = true ∨ Ascii.eqb c "_" = true → Ascii.eqb c "-" = false.
Proof. intros [H|H]; revert H; by_cases c. Qed.

End CharFacts.

Lemma append_cons c (r t : string) : String c r +:+ t = String c (r +:+ t).
Proof. reflexivity. Qed.

Lemma append_nil_l (t : string) : "" +:+ t = t.
Proof. reflexivity. Qed.

Lemma append_nil_r (s : string) : s +:+ "" = s.
Proof. induction s as [|c r IH]; [done | by rewrite append_cons, IH]. Qed.

Lemma append_assoc (s t u : string) : (s +:+ t) +:+ u = s +:+ t +:+ u.
Proof. induction s as [|c r IH]; [done | by rewrite !append_cons, IH]. Qed.

Lemma all_chars_app P s t :
  all_chars P (s +:+ t) = all_chars P s && all_chars P t.
Proof.
  induction s as [|c r IH]; [done|].
  rewrite append_cons. simpl. by rewrite IH, andb_assoc.
Qed.

Lemma all_chars_impl (P Q : ascii → bool) s :
  (∀ c, P c = true → Q c = true) → all_chars P s = true → all_chars Q s = true.
Proof.
  intros HPQ. induction s as [|c r IH]; simpl; [done|].
  intros [Hc Hr]%andb_true_iff. rewrite (HPQ c Hc). simpl. auto.
Qed.

(** *** [strip] *)

Lemma rstrip_cons c r :
  Py.rstrip (String c r) =
  if Py.isspace c && String.eqb (Py.rstrip r) "" then ""
  else String c (Py.rstrip r).
Proof.
  simpl. destruct (Py.rstrip r) as [|d r']; simpl.
  - by destruct (Py.isspace c).
  - by rewrite andb_false_r.
Qed.

Lemma rstrip_empty_iff s : Py.rstrip s = "" ↔ all_chars Py.isspace s = true.
Proof.
  induction s as [|c r IH]; [done|].
  rewrite rstrip_cons. cbn [all_chars]. rewrite andb_true_iff, <- IH.
  destruct (Py.isspace c); simpl.
  - destruct (Py.rstrip r); simpl; split; try done; intros []; done.
  - split; [done | intros []; done].
Qed.

Lemma rstrip_idem s : Py.rstrip (Py.rstrip s) = Py.rstrip s.
Proof.
  induction s as [|c r IH]; [done|].
  rewrite rstrip_cons.
  destruct (Py.isspace c && String.eqb (Py.rstrip r) "") eqn:E; [done|].
  rewrite rstrip_cons, IH, E. done.
Qed.

Lemma rstrip_app_spaces s post :
  all_chars Py.isspace post = true → Py.rstrip (s +:+ post) = Py.rstrip s.
Proof.
  intros Hpost. induction s as [|c r IH].
  - rewrite append_nil_l. by apply rstrip_empty_iff.
  - rewrite append_cons. by rewrite !rstrip_cons, IH.
Qed.

Lemma rstrip_nonspace s : all_chars nonspace s = true → Py.rstrip s = s.
Proof.
  induction s as [|c r IH]; [done|].
  cbn [all_chars]. intros [Hc Hr]%andb_true_iff.
  rewrite rstrip_cons, (IH Hr).
  unfold nonspace in Hc. apply negb_true_iff in Hc. by rewrite Hc.
Qed.

Lemma lstrip_spaces pre s :
  all_chars Py.isspace pre = true → Py.lstrip (pre +:+ s) = Py.lstrip s.
Proof.
  induction pre as [|c r IH]; [done|].
  cbn [all_chars]. intros [Hc Hr]%andb_true_iff.
  rewrite append_cons. simpl. rewrite Hc. auto.
Qed.

Lemma lstrip_head s :
  Py.lstrip s = "" ∨ ∃ c r, Py.lstrip s = String c r ∧ Py.isspace c = false.
Proof.
  induction s as [|c r IH]; [by left|].
  simpl. destruct (Py.isspace c) eqn:E; [done|].
  right. eauto.
Qed.

Lemma strip_nonspace s : all_chars nonspace s = true → Py.strip s = s.
Proof.
  intros H. unfold Py.strip.
  assert (Py.lstrip s = s) as ->; [|by apply rstrip_nonspace].
  destruct s as [|c r]; [done|].
  cbn [all_chars] in H. apply andb_true_iff in H as [Hc _].
  unfold nonspace in Hc. apply negb_true_iff in Hc. simpl. by rewrite Hc.
Qed.

Lemma strip_idem s : Py.strip (Py.strip s) = Py.strip s.
Proof.
  unfold Py.strip.
  destruct (lstrip_head s) as [-> | (c & r & -> & Hc)]; [done|].
  rewrite rstrip_cons, Hc. simpl. rewrite Hc.
  rewrite rstrip_cons, Hc. simpl. by rewrite rstrip_idem.
Qed.

Lemma strip_pad pre s post :
  all_chars Py.isspace pre = true → all_chars Py.isspace post = true →
  Py.strip (pre +:+ s +:+ post) = Py.strip s.
Proof.
  intros Hpre Hpost. unfold Py.strip. rewrite (lstrip_spaces _ _ Hpre).
  induction s as [|c r IH].
  - rewrite append_nil_l. apply rstrip_empty_iff.
    clear -Hpost. induction post as [|c r IH]; [done|].
    cbn [all_chars] in Hpost. apply andb_true_iff in Hpost as [Hc Hr].
    simpl. rewrite Hc. auto.
  - rewrite append_cons. simpl. destruct (Py.isspace c); [done|].
    rewrite <- append_cons. by apply rstrip_app_spaces.
Qed.

Lemma strip_empty_iff s : Py.strip s = "" ↔ all_chars Py.isspace s = true.
Proof.
  unfold Py.strip. induction s as [|c r IH]; [done|].
  simpl. destruct (Py.isspace c) eqn:E; [done|].
  simpl. split; [|done].
  change (Py.rstrip (String c r) = "" → false = true).
  rewrite rstrip_cons, E. done.
Qed.

Lemma contains_lstrip c s :
  Py.isspace c = false → Py.contains c (Py.lstrip s) = Py.contains c s.
Proof.
  intros Hc. induction s as [|d r IH]; [done|].
  simpl. destruct (Py.isspace d) eqn:E; [|done].
  rewrite IH. destruct (Ascii.eqb_spec d c) as [->|]; [congruence | done].
Qed.

Lemma contains_rstrip c s :
  Py.isspace c = false → Py.contains c (Py.rstrip s) = Py.contains c s.
Proof.
  intros Hc. induction s as [|d r IH]; [done|].
  rewrite rstrip_cons.
  destruct (Py.isspace d && String.eqb (Py.rstrip r) "") eqn:E.
  - apply andb_true_iff in E as [Hd Hr]. apply String.eqb_eq in Hr.
    rewrite Hr in IH. simpl in *. rewrite <- IH.
    destruct (Ascii.eqb_spec d c) as [->|]; [congruence | done].
  - simpl. by rewrite IH.
Qed.

Lemma contains_strip c s :
  Py.isspace c = false → Py.contains c (Py.strip s) = Py.contains c s.
Proof.
  intros Hc. unfold Py.strip. by rewrite contains_rstrip, contains_lstrip.
Qed.

Lemma contains_app c s t :
  Py.contains c (s +:+ t) = Py.contains c s || Py.contains c t.
Proof.
  induction s as [|d r IH]; [done|].
  rewrite append_cons. simpl. by rewrite IH, orb_assoc.
Qed.

Lemma contains_all_chars (P : ascii → bool) c s :
  P c = false → all_chars P s = true → Py.contains c s = false.
Proof.
  intros Hc. induction s as [|d r IH]; [done|].
  cbn [all_chars]. intros [Hd Hr]%andb_true_iff. simpl. rewrite (IH Hr).
  destruct (Ascii.eqb_spec d c) as [->|]; [congruence | done].
Qed.

Lemma count_contains c s : Py.contains c s = false ↔ Py.count c s = O.
Proof.
  induction s as [|d r IH]; [done|].
  simpl. destruct (Ascii.eqb d c); simpl; [split; [done | lia] | done].
Qed.

(** *** [str] and [int] *)

Lemma string_of_uint_digits d :
  all_chars is_digit (NilEmpty.string_of_uint d) = true.
Proof. induction d; cbn [NilEmpty.string_of_uint all_chars]; by rewrite ?IHd. Qed.

Lemma string_of_uint_nonnil d :
  d ≠ Decimal.Nil → NilZero.string_of_uint d = NilEmpty.string_of_uint d.
Proof. by destruct d. Qed.

Lemma str_pos p : Py.str (Z.pos p) = NilEmpty.string_of_uint (Pos.to_uint p).
Proof.
  unfold Py.str. cbn [Z.to_int NilZero.string_of_int].
  apply string_of_uint_nonnil, Unsigned.to_uint_nonnil.
Qed.

Lemma str_neg p : Py.str (Z.neg p) = String "-" (Py.str (Z.pos p)).
Proof.
  rewrite str_pos. unfold Py.str. cbn [Z.to_int NilZero.string_of_int].
  by rewrite string_of_uint_nonnil by apply Unsigned.to_uint_nonnil.
Qed.

Lemma str_digits n : 0 ≤ n → all_chars is_digit (Py.str n) = true.
Proof.
  destruct n as [|p|p]; [done | | lia].
  intros _. rewrite str_pos. apply string_of_uint_digits.
Qed.

Lemma str_nonempty n : Py.str n ≠ "".
Proof.
  assert (∀ p, Py.str (Z.pos p) ≠ "") as Hpos.
  { intros p. rewrite str_pos.
    pose proof (Unsigned.to_uint_nonnil p). by destruct (Pos.to_uint p). }
  destruct n as [|p|p]; [done | done |]. by rewrite str_neg.
Qed.

(** The value of the digit at the head of the text is computed. *)
Ltac eval_digit :=
  match goal with
  | |- context [Py.digit_value ?c] =>
      let v := eval vm_compute in (Py.digit_value c) in
      change (Py.digit_value c) with v; cbv iota
  end.

Lemma int_digits_uint d acc :
  Py.int_digits true (Z.pos acc) (NilEmpty.string_of_uint d)
  = Some (Z.pos (Pos.of_uint_acc d acc)).
Proof.
  revert acc.
  induction d; intros acc; [done | ..];
    cbn [NilEmpty.string_of_uint Pos.of_uint_acc Py.int_digits];
    rewrite <- IHd; eval_digit; f_equal; lia.
Qed.

Lemma int_digits_uint0 d :
  Py.int_digits true 0 (NilEmpty.string_of_uint d)
  = Some (Z.of_N (Pos.of_uint d)).
Proof.
  induction d; [done | ..];
    cbn [NilEmpty.string_of_uint Pos.of_uint Py.int_digits]; eval_digit;
    [exact IHd | apply (int_digits_uint d) ..].
Qed.

Lemma int_digits_flag b acc c r :
  is_digit c = true →
  Py.int_digits b acc (String c r) = Py.int_digits true acc (String c r).
Proof. unfold is_digit. simpl. by destruct (Py.digit_value c). Qed.

Lemma int_digits_str_pos p : Py.int_digits false 0 (Py.str (Z.pos p)) = Some (Z.pos p).
Proof.
  rewrite str_pos.
  pose proof (Unsigned.to_uint_nonnil p) as Hnil.
  pose proof (string_of_uint_digits (Pos.to_uint p)) as Hdig.
  pose proof (int_digits_uint0 (Pos.to_uint p)) as Hval.
  rewrite Unsigned.of_to in Hval.
  destruct (NilEmpty.string_of_uint (Pos.to_uint p)) as [|c r] eqn:E.
  - by destruct (Pos.to_uint p).
  - cbn [all_chars] in Hdig. apply andb_true_iff in Hdig as [Hc _].
    by rewrite int_digits_flag.
Qed.

Lemma int_cons c r :
  Py.strip (String c r) = String c r →
  Py.int (String c r) =
  if Ascii.eqb c "-" then Z.opp <$> Py.int_digits false 0 r
  else if Ascii.eqb c "+" then Py.int_digits false 0 r
  else Py.int_digits false 0 (String c r).
Proof. intros H. unfold Py.int. by rewrite H. Qed.

(** Reading back what [str] prints gives the number. *)
Lemma int_str n : Py.int (Py.str n) = Some n.
Proof.
  destruct n as [|p|p]; [done | |].
  - pose proof (str_digits (Z.pos p) ltac:(lia)) as Hdig.
    pose proof (int_digits_str_pos p) as Hval.
    pose proof (strip_nonspace (Py.str (Z.pos p))) as Hstrip.
    destruct (Py.str (Z.pos p)) as [|c r]; [done|].
    rewrite int_cons.
    + cbn [all_chars] in Hdig. apply andb_true_iff in Hdig as [Hc _].
      by rewrite (digit_not_minus c Hc), (digit_not_plus c Hc).
    + apply Hstrip. eapply all_chars_impl; [|exact Hdig].
      intros d Hd. unfold nonspace. by rewrite digit_nonspace.
  - rewrite str_neg, int_cons.
    + rewrite int_digits_str_pos. done.
    + apply strip_nonspace. cbn [all_chars].
      apply andb_true_iff. split; [done|].
      eapply all_chars_impl; [|apply (str_digits (Z.pos p)); lia].
      intros d Hd. unfold nonspace. by rewrite digit_nonspace.
Qed.

(** A text that [int] reads holds no colon and, past its first character,
    no minus sign. *)
Lemma int_digits_chars b acc s n :
  Py.int_digits b acc s = Some n →
  all_chars (fun c => is_digit c || Ascii.eqb c "_") s = true.
Proof.
  revert b acc. induction s as [|c r IH]; intros b acc; [done|].
  cbn [Py.int_digits all_chars]. unfold is_digit.
  destruct (Py.digit_value c) as [d|].
  - intros H. simpl. eauto.
  - destruct (b && Ascii.eqb c "_") eqn:E; [|done].
    apply andb_true_iff in E as [_ ->]. intros H. simpl. eauto.
Qed.

Lemma int_digits_no_char (x : ascii) b acc s n :
  (∀ c, is_digit c = true ∨ Ascii.eqb c "_" = true → Ascii.eqb c x = false) →
  Py.int_digits b acc s = Some n → Py.contains x s = false.
Proof.
  intros Hx H%int_digits_chars.
  induction s as [|c r IH]; [done|].
  cbn [all_chars] in H. apply andb_true_iff in H as [Hc Hr].
  simpl. rewrite (IH Hr), orb_false_r. apply Hx.
  by apply orb_true_iff in Hc.
Qed.

Lemma int_digits_nonneg b acc s n :
  0 ≤ acc → Py.int_digits b acc s = Some n → 0 ≤ n.
Proof.
  revert b acc. induction s as [|c r IH]; intros b acc Hacc.
  - simpl. destruct b; [|done]. by intros [= <-].
  - cbn [Py.int_digits]. unfold Py.digit_value.
    destruct (_ && _)%N eqn:E.
    + apply IH. apply andb_true_iff in E as [E1%N.leb_le _]. lia.
    + destruct (b && Ascii.eqb c "_"); [by apply IH | done].
Qed.

Lemma int_no_colon s n : Py.int s = Some n → Py.contains ":" (Py.strip s) = false.
Proof.
  unfold Py.int. destruct (Py.strip s) as [|c r]; [done|].
  destruct (Ascii.eqb_spec c "-") as [->|_];
    [|destruct (Ascii.eqb_spec c "+") as [->|_]].
  - destruct (Py.int_digits false 0 r) as [m|] eqn:E; [|done].
    intros _. cbn [Py.contains].
    by rewrite (int_digits_no_char ":" _ _ _ _ literal_char_not_colon E).
  - intros E. cbn [Py.contains].
    by rewrite (int_digits_no_char ":" _ _ _ _ literal_char_not_colon E).
  - intros E.
    apply (int_digits_no_char ":" _ _ _ _ literal_char_not_colon E).
Qed.

(** Without a minus sign the number read is not negative. *)
Lemma int_no_minus_nonneg s n :
  Py.contains "-" s = false → Py.int s = Some n → 0 ≤ n.
Proof.
  intros Hs. rewrite <- (contains_strip "-" s) in Hs by done.
  unfold Py.int. destruct (Py.strip s) as [|c r]; [done|].
  simpl in Hs. apply orb_false_iff in Hs as [-> _].
  destruct (Ascii.eqb c "+"); by apply int_digits_nonneg.
Qed.

Lemma int_strip s : Py.int (Py.strip s) = Py.int s.
Proof. unfold Py.int. by rewrite strip_idem. Qed.

(** *** [split] and [join] *)

Lemma split_nosep sep s : Py.contains sep s = false → Py.split sep s = [s].
Proof.
  induction s as [|c r IH]; [done|].
  simpl. intros [Hc Hr]%orb_false_iff. by rewrite Hc, (IH Hr).
Qed.

Lemma split_app_sep sep s t :
  Py.contains sep s = false →
  Py.split sep (s +:+ String sep t) = s :: Py.split sep t.
Proof.
  induction s as [|c r IH].
  - intros _. rewrite append_nil_l. simpl. by rewrite Ascii.eqb_refl.
  - intros H. cbn [Py.contains] in H. apply orb_false_iff in H as [Hc Hr].
    rewrite append_cons. cbn [Py.split]. by rewrite Hc, (IH Hr).
Qed.

Lemma split1_nosep sep s : Py.contains sep s = false → Py.split1 sep s = [s].
Proof.
  induction s as [|c r IH]; [done|].
  simpl. intros [Hc Hr]%orb_false_iff. by rewrite Hc, (IH Hr).
Qed.

Lemma split1_app_sep sep s t :
  Py.contains sep s = false →
  Py.split1 sep (s +:+ String sep t) = [s; t].
Proof.
  induction s as [|c r IH].
  - intros _. rewrite append_nil_l. simpl. by rewrite Ascii.eqb_refl.
  - intros H. cbn [Py.contains] in H. apply orb_false_iff in H as [Hc Hr].
    rewrite append_cons. cbn [Py.split1]. by rewrite Hc, (IH Hr).
Qed.

(** With a separator in the text, [split1] cuts at the first one. *)
Lemma split1_sep sep s :
  Py.contains sep s = true →
  ∃ a b, Py.split1 sep s = [a; b] ∧ s = a +:+ String sep b
         ∧ Py.contains sep a = false.
Proof.
  induction s as [|c r IH]; [done|].
  simpl. destruct (Ascii.eqb_spec c sep) as [->|Hne].
  - intros _. by exists "", r.
  - simpl. intros (a & b & -> & -> & Ha)%IH.
    exists (String c a), b. repeat split.
    simpl. rewrite Ha. by destruct (Ascii.eqb_spec c sep).
Qed.

Lemma count_app c s t : Py.count c (s +:+ t) = (Py.count c s + Py.count c t)%nat.
Proof.
  induction s as [|d r IH]; [done|].
  rewrite append_cons. simpl. rewrite IH. lia.
Qed.

Lemma join_cons sep x y l :
  Py.join sep (x :: y :: l) = x +:+ sep +:+ Py.join sep (y :: l).
Proof. reflexivity. Qed.

Lemma split_join sep l :
  l ≠ [] → Forall (fun x => Py.contains sep x = false) l →
  Py.split sep (Py.join (String sep "") l) = l.
Proof.
  intros Hne Hall. induction Hall as [|x l Hx Hl IH]; [done|].
  destruct l as [|y l].
  - simpl. by apply split_nosep.
  - rewrite join_cons, append_cons, append_nil_l.
    rewrite split_app_sep by done. by rewrite IH.
Qed.

(** * RangeParser *)

(** [parse_time] reads its argument as [int] does. *)
Lemma parse_time_int s :
  parse_time s =
  match Py.int s with
  | None => Raise (Clipper InvalidTimestamp)
  | Some n => if n <? 0 then Raise (Clipper NegativeTimestamp) else Ok n
  end.
Proof.
  unfold parse_time. rewrite int_strip.
  destruct (Py.int s) as [n|] eqn:E.
  - by rewrite (int_no_colon _ _ E).
  - by destruct (Py.contains ":" (Py.strip s)).
Qed.

Lemma parse_time_strip s : parse_time (Py.strip s) = parse_time s.
Proof. by rewrite !parse_time_int, int_strip. Qed.

Lemma parse_time_str n : 0 ≤ n → parse_time (Py.str n) = Ok n.
Proof.
  intros Hn. rewrite parse_time_int, int_str.
  by destruct (Z.ltb_spec n 0); [lia|].
Qed.

Lemma parse_time_no_minus s :
  Py.contains "-" s = false →
  parse_time s ≠ Raise (Clipper NegativeTimestamp).
Proof.
  intros Hs. rewrite parse_time_int.
  destruct (Py.int s) as [n|] eqn:E; [|done].
  pose proof (int_no_minus_nonneg _ _ Hs E).
  by destruct (Z.ltb_spec n 0); [lia|].
Qed.

(** C9: [parse_time] trims the whitespace around its argument; it returns
    [n] for every text that denotes a non-negative base-10 integer [n]
    (whatever [int] reads, and in particular whatever [str] prints); it fails
    with [InvalidTimestamp] when the text holds a colon or is not a base-10
    integer, and with [NegativeTimestamp] when the text denotes a negative
    integer. *)
Theorem parse_time_spec :
  (∀ pre s post,
     all_chars Py.isspace pre = true → all_chars Py.isspace post = true →
     parse_time (pre +:+ s +:+ post) = parse_time s)
  ∧ (∀ s n, Py.int s = Some n → 0 ≤ n → parse_time s = Ok n)
  ∧ (∀ n, 0 ≤ n → parse_time (Py.str n) = Ok n)
  ∧ (∀ s, Py.contains ":" s = true ∨ Py.int s = None →
          parse_time s = Raise (Clipper InvalidTimestamp))
  ∧ (∀ s n, Py.int s = Some n → n < 0 →
            parse_time s = Raise (Clipper NegativeTimestamp))
  ∧ (∀ n, n < 0 → parse_time (Py.str n) = Raise (Clipper NegativeTimestamp))
  ∧ parse_time "120" = Ok 120
  ∧ parse_time "2:00" = Raise (Clipper InvalidTimestamp)
  ∧ parse_time "abc" = Raise (Clipper InvalidTimestamp)
  ∧ parse_time "-5" = Raise (Clipper NegativeTimestamp).
Proof.
  repeat apply conj; try reflexivity.
  - intros pre s post Hpre Hpost.
    by rewrite <- parse_time_strip, strip_pad, parse_time_strip.
  - intros s n Hs Hn. rewrite parse_time_int, Hs.
    by destruct (Z.ltb_spec n 0); [lia|].
  - apply parse_time_str.
  - intros s [Hcolon | Hint].
    + unfold parse_time. by rewrite contains_strip, Hcolon.
    + by rewrite parse_time_int, Hint.
  - intros s n Hs Hn. rewrite parse_time_int, Hs.
    by destruct (Z.ltb_spec n 0); [|lia].
  - intros n Hn. rewrite parse_time_int, int_str.
    by destruct (Z.ltb_spec n 0); [|lia].
Qed.

Lemma parse_time_spec_witness :
  all_chars Py.isspace " " = true
  ∧ Py.int "0_042" = Some 42 ∧ 0 ≤ 42
  ∧ parse_time (" " +:+ "0_042" +:+ " ") = Ok 42
  ∧ Py.int "-07" = Some (-7) ∧ -7 < 0
  ∧ parse_time "-07" = Raise (Clipper NegativeTimestamp)
  ∧ parse_time "1:5" = Raise (Clipper InvalidTimestamp).
Proof.
  destruct parse_time_spec as (Htrim & Hok & _ & Hbad & Hneg & _).
  split; [reflexivity|]. split; [reflexivity|]. split; [lia|].
  split.
  { rewrite (Htrim " " "0_042" " ") by reflexivity.
    apply (Hok "0_042" 42); [reflexivity | lia]. }
  split; [reflexivity|]. split; [lia|].
  split.
  { apply (Hneg "-07" (-7)); [reflexivity | lia]. }
  apply (Hbad "1:5"). left. reflexivity.
Defined.

(** *** One segment *)

Lemma parse_item_no_dash item :
  Py.contains "-" item = false →
  parse_item item = Raise (Clipper (MalformedRange item)).
Proof. intros H. unfold parse_item. by rewrite H. Qed.

(** With a separator the segment is cut at its first ['-'] and both parts go
    through [parse_time]; the unpacking never fails. *)
Lemma parse_item_dash item :
  Py.contains "-" item = true →
  ∃ start_text end_text,
    item = start_text +:+ String "-" end_text
    ∧ Py.contains "-" start_text = false
    ∧ parse_item item =
        (let? start := parse_time start_text in
         let? end_ := parse_time end_text in
         let? _ := _validate_range start end_ in
         Ok (start, end_)).
Proof.
  intros H. destruct (split1_sep _ _ H) as (a & b & Hsplit & Hitem & Ha).
  exists a, b. repeat split; [done..|].
  unfold parse_item. by rewrite H, Hsplit.
Qed.

Lemma parse_item_cut start_text end_text :
  Py.contains "-" start_text = false →
  parse_item (start_text +:+ String "-" end_text) =
    (let? start := parse_time start_text in
     let? end_ := parse_time end_text in
     let? _ := _validate_range start end_ in
     Ok (start, end_)).
Proof.
  intros H. unfold parse_item.
  rewrite contains_app, split1_app_sep by done.
  simpl. by rewrite orb_true_r.
Qed.

Lemma parse_time_ok_inv s n : parse_time s = Ok n → Py.int s = Some n ∧ 0 ≤ n.
Proof.
  rewrite parse_time_int. destruct (Py.int s) as [m|]; [|done].
  destruct (Z.ltb_spec m 0); [done|]. intros [= ->]. split; [done | lia].
Qed.

(** A text that denotes a positive number holds no minus sign. *)
Lemma int_pos_no_minus s n : Py.int s = Some n → 0 < n → Py.contains "-" s = false.
Proof.
  intros Hint Hn. rewrite <- (contains_strip "-" s) by done.
  revert Hint. unfold Py.int. destruct (Py.strip s) as [|c r]; [done|].
  destruct (Ascii.eqb_spec c "-") as [->|Hc].
  - destruct (Py.int_digits false 0 r) as [m|] eqn:E; [|done].
    pose proof (int_digits_nonneg _ _ _ _ (Z.le_refl 0) E).
    intros [= <-]. lia.
  - assert (Ascii.eqb c "-" = false) as Hc' by by apply Ascii.eqb_neq.
    destruct (Ascii.eqb c "+").
    + intros E. cbn [Py.contains]. rewrite Hc'.
      apply (int_digits_no_char "-" _ _ _ _ literal_char_not_minus E).
    + intros E.
      apply (int_digits_no_char "-" _ _ _ _ literal_char_not_minus E).
Qed.

Lemma parse_item_ok_inv item r :
  parse_item item = Ok r →
  Py.count "-" item = 1%nat
  ∧ ∃ start_text end_text,
      item = start_text +:+ String "-" end_text
      ∧ parse_time start_text = Ok r.1
      ∧ parse_time end_text = Ok r.2
      ∧ 0 ≤ r.1 < r.2.
Proof.
  intros Hok.
  destruct (Py.contains "-" item) eqn:Hdash;
    [|by rewrite parse_item_no_dash in Hok].
  destruct (parse_item_dash _ Hdash) as (s & e & -> & Hs & Heq).
  rewrite Heq in Hok. clear Heq Hdash.
  destruct (parse_time s) as [a|] eqn:Ea; [|done].
  destruct (parse_time e) as [b|] eqn:Eb; [|done].
  unfold _validate_range in Hok. simpl in Hok.
  destruct (Z.leb_spec b a); [done|]. injection Hok as <-.
  pose proof Ea as [_ Ha]%parse_time_ok_inv.
  pose proof Eb as [Hb _]%parse_time_ok_inv.
  split.
  - rewrite count_app. cbn [Py.count]. rewrite Ascii.eqb_refl.
    apply count_contains in Hs as ->.
    assert (Py.contains "-" e = false) as ->%count_contains; [|done].
    apply (int_pos_no_minus _ _ Hb). lia.
  - exists s, e. simpl. repeat split; try done; lia.
Qed.

Lemma parse_item_not_value_error item : parse_item item ≠ Raise ValueError.
Proof.
  destruct (Py.contains "-" item) eqn:Hdash;
    [|rewrite parse_item_no_dash by done; discriminate].
  destruct (parse_item_dash _ Hdash) as (s & e & _ & _ & ->).
  rewrite !parse_time_int. unfold _validate_range.
  repeat (simpl; case_match; try discriminate).
Qed.

(** *** The loop *)

Lemma parse_items_ok items rs parsed :
  parses_to items rs → parse_items items parsed = Ok (parsed ++ rs).
Proof.
  intros H. revert parsed.
  induction H as [|item r items rs Hr _ IH]; intros parsed.
  - by rewrite app_nil_r.
  - simpl. rewrite Hr. simpl. by rewrite IH, <- app_assoc.
Qed.

Lemma parse_items_raise pre item post rs e parsed :
  parses_to pre rs → parse_item item = Raise e →
  parse_items (pre ++ item :: post) parsed = Raise e.
Proof.
  intros H He. revert parsed.
  induction H as [|i r items rs Hr _ IH]; intros parsed.
  - simpl. by rewrite He.
  - simpl. rewrite Hr. simpl. apply IH.
Qed.

Lemma parse_items_ok_inv items parsed out :
  parse_items items parsed = Ok out →
  ∃ rs, out = parsed ++ rs ∧ parses_to items rs.
Proof.
  revert parsed. induction items as [|item items IH]; intros parsed.
  - intros [= <-]. exists []. rewrite app_nil_r. split; [done | constructor].
  - simpl. destruct (parse_item item) as [r|] eqn:Hr; [|done]. simpl.
    intros (rs & -> & Hrs)%IH. exists (r :: rs).
    rewrite <- app_assoc. split; [done | by constructor].
Qed.

(** What one segment can fail with. *)
Lemma parse_item_errors item e :
  parse_item item = Raise e →
  e = Clipper (MalformedRange item) ∨ e = Clipper InvalidTimestamp
  ∨ e = Clipper NegativeTimestamp ∨ e = Clipper NonPositiveDuration.
Proof.
  destruct (Py.contains "-" item) eqn:Hdash.
  - destruct (parse_item_dash _ Hdash) as (s & t & _ & _ & ->).
    rewrite !parse_time_int. unfold _validate_range.
    repeat (simpl; case_match; try discriminate); intros [= <-]; auto.
  - rewrite parse_item_no_dash by done. intros [= <-]. auto.
Qed.

(** A failure of the loop is the failure of its first failing segment. *)
Lemma parse_items_raise_inv items parsed e :
  parse_items items parsed = Raise e →
  ∃ pre item post rs,
    items = pre ++ item :: post ∧ parses_to pre rs
    ∧ parse_item item = Raise e.
Proof.
  revert parsed. induction items as [|item items IH]; intros parsed; [done|].
  simpl. destruct (parse_item item) as [r|e'] eqn:Hr; simpl.
  - intros (pre & i & post & rs & -> & Hpre & Hi)%IH.
    exists (item :: pre), i, post, (r :: rs).
    split; [done|]. split; [by constructor | done].
  - intros [= ->]. exists [], item, items, [].
    split; [done|]. split; [constructor | done].
Qed.

(** *** The segments of the input *)

Lemma range_items_filter ranges :
  range_items ranges =
  filter (fun s => s ≠ "") (Py.strip <$> Py.split "," ranges).
Proof.
  unfold range_items.
  induction (Py.split "," ranges) as [|seg l IH]; [done|].
  rewrite fmap_cons. cbn [omap list_omap]. rewrite filter_cons.
  destruct (Py.strip seg) eqn:E; [done|].
  by rewrite IH.
Qed.

Lemma range_items_empty_iff ranges :
  range_items ranges = [] ↔
  Forall (fun seg => all_chars Py.isspace seg = true) (Py.split "," ranges).
Proof.
  unfold range_items.
  induction (Py.split "," ranges) as [|seg l IH].
  - split; [constructor | done].
  - cbn [omap list_omap]. rewrite Forall_cons, <- IH, <- strip_empty_iff.
    destruct (Py.strip seg); [tauto|]. split; [done | by intros []].
Qed.

Lemma range_items_clean l :
  Forall (fun x => x ≠ "" ∧ all_chars nonspace x = true
                   ∧ Py.contains "," x = false) l →
  l ≠ [] → range_items (Py.join "," l) = l.
Proof.
  intros Hall Hne. unfold range_items.
  rewrite split_join by (done || (eapply Forall_impl; [done | by intros ? (_ & _ & ?)])).
  clear Hne. induction Hall as [|x l (Hx & Hsp & _) _ IH]; [done|].
  cbn [omap list_omap]. rewrite (strip_nonspace _ Hsp), IH.
  by destruct x.
Qed.

(** *** Ranges as an operator types them *)

Lemma str_no_char (x : ascii) n :
  0 ≤ n → is_digit x = false → Py.contains x (Py.str n) = false.
Proof.
  intros Hn Hx. by apply (contains_all_chars is_digit), str_digits.
Qed.

Lemma range_text_chars r :
  0 ≤ r.1 → 0 ≤ r.2 →
  range_text r ≠ ""
  ∧ all_chars nonspace (range_text r) = true
  ∧ Py.contains "," (range_text r) = false.
Proof.
  intros H1 H2. unfold range_text. repeat split.
  - pose proof (str_nonempty r.1). by destruct (Py.str r.1).
  - rewrite !all_chars_app. cbn [all_chars].
    assert (∀ n, 0 ≤ n → all_chars nonspace (Py.str n) = true) as Hns.
    { intros n Hn. eapply all_chars_impl; [|by apply str_digits].
      intros d Hd. unfold nonspace. by rewrite digit_nonspace. }
    by rewrite !Hns.
  - rewrite !contains_app. cbn [Py.contains].
    by rewrite !str_no_char.
Qed.

Lemma parse_item_range_text a b :
  0 ≤ a → 0 ≤ b →
  parse_item (range_text (a, b)) =
  if b <=? a then Raise (Clipper NonPositiveDuration) else Ok (a, b).
Proof.
  intros Ha Hb.
  change (range_text (a, b)) with (Py.str a +:+ String "-" (Py.str b)).
  rewrite parse_item_cut by by apply str_no_char.
  rewrite !parse_time_str by done. unfold _validate_range. simpl.
  by destruct (b <=? a).
Qed.

Lemma parses_to_range_text rs :
  Forall (fun r : ClipRange => 0 ≤ r.1 < r.2) rs →
  parses_to (range_text <$> rs) rs.
Proof.
  induction 1 as [|[a b] rs [Ha Hab] _ IH]; [constructor|].
  rewrite fmap_cons. constructor; [|done]. simpl in *.
  rewrite parse_item_range_text by lia.
  by destruct (Z.leb_spec b a); [lia|].
Qed.

Lemma parse_clip_ranges_unfold ranges :
  parse_clip_ranges ranges =
  if bool_decide (range_items ranges = []) then Raise (Clipper NoRangesProvided)
  else parse_items (range_items ranges) [].
Proof. unfold parse_clip_ranges. by destruct (range_items ranges). Qed.

Lemma parse_clip_ranges_join rs :
  rs ≠ [] → Forall (fun r : ClipRange => 0 ≤ r.1 < r.2) rs →
  parse_clip_ranges (Py.join "," (range_text <$> rs)) = Ok rs.
Proof.
  intros Hne Hall. rewrite parse_clip_ranges_unfold.
  rewrite range_items_clean.
  - rewrite bool_decide_false by by destruct rs.
    by rewrite (parse_items_ok _ rs []) by by apply parses_to_range_text.
  - apply Forall_fmap. eapply Forall_impl; [done|].
    intros r Hr. simpl in Hr. apply range_text_chars; lia.
  - by destruct rs.
Qed.

(** C8: [parse_clip_ranges] splits its input on commas, trims each segment
    and drops the empty ones; it fails with [NoRangesProvided] exactly when
    no segment remains; a segment without ['-'] fails with [MalformedRange],
    and one that parses holds exactly one ['-'], both of whose sides went
    through [parse_time], with [start < end]; [end <= start] fails with
    [NonPositiveDuration]; the result lists one range per segment in input
    order, the first failing segment giving the error; so ["a-b"] with
    [0 <= a < b] gives [[(a, b)]], and any list of such ranges, joined by
    commas, is returned as it is: neither sorted, nor deduplicated, nor
    checked for overlaps. *)
Theorem parse_clip_ranges_spec :
  (∀ ranges,
     range_items ranges =
     filter (fun s => s ≠ "") (Py.strip <$> Py.split "," ranges))
  ∧ (∀ ranges,
       parse_clip_ranges ranges = Raise (Clipper NoRangesProvided)
       ↔ Forall (fun seg => all_chars Py.isspace seg = true)
                (Py.split "," ranges))
  ∧ (∀ item,
       Py.contains "-" item = false
       ↔ parse_item item = Raise (Clipper (MalformedRange item)))
  ∧ (∀ item r,
       parse_item item = Ok r →
       Py.count "-" item = 1%nat
       ∧ ∃ start_text end_text,
           item = start_text +:+ String "-" end_text
           ∧ parse_time start_text = Ok r.1
           ∧ parse_time end_text = Ok r.2
           ∧ 0 ≤ r.1 < r.2)
  ∧ (∀ start_text end_text a b,
       Py.contains "-" start_text = false →
       parse_time start_text = Ok a → parse_time end_text = Ok b → b ≤ a →
       parse_item (start_text +:+ String "-" end_text)
       = Raise (Clipper NonPositiveDuration))
  ∧ (∀ ranges rs,
       parse_clip_ranges ranges = Ok rs
       ↔ range_items ranges ≠ [] ∧ parses_to (range_items ranges) rs)
  ∧ (∀ ranges pre item post rs e,
       range_items ranges = pre ++ item :: post →
       parses_to pre rs → parse_item item = Raise e →
       parse_clip_ranges ranges = Raise e)
  ∧ (∀ a b, 0 ≤ a < b → parse_clip_ranges (range_text (a, b)) = Ok [(a, b)])
  ∧ (∀ a b, 0 ≤ b ≤ a →
       parse_clip_ranges (range_text (a, b))
       = Raise (Clipper NonPositiveDuration))
  ∧ (∀ rs, rs ≠ [] → Forall (fun r : ClipRange => 0 ≤ r.1 < r.2) rs →
       parse_clip_ranges (Py.join "," (range_text <$> rs)) = Ok rs)
  ∧ parse_clip_ranges "10-30,45-50" = Ok [(10, 30); (45, 50)]
  ∧ parse_clip_ranges "45-50,10-30,10-30,20-40"
    = Ok [(45, 50); (10, 30); (10, 30); (20, 40)]
  ∧ parse_clip_ranges "" = Raise (Clipper NoRangesProvided)
  ∧ parse_clip_ranges " , " = Raise (Clipper NoRangesProvided).
Proof.
  repeat apply conj; try reflexivity.
  - apply range_items_filter.
  - intros ranges. rewrite <- range_items_empty_iff, parse_clip_ranges_unfold.
    case_bool_decide as Hitems; [done|]. split; [|done].
    intros (pre & item & post & rs & _ & _ & Hitem)%parse_items_raise_inv.
    by destruct (parse_item_errors _ _ Hitem) as [?|[?|[?|?]]].
  - intros item. split; [apply parse_item_no_dash|].
    destruct (Py.contains "-" item) eqn:Hdash; [|done].
    destruct (parse_item_dash _ Hdash) as (s & e & _ & _ & ->).
    rewrite !parse_time_int. unfold _validate_range.
    repeat (simpl; case_match; try discriminate).
  - apply parse_item_ok_inv.
  - intros s e a b Hs Ha Hb Hab. rewrite parse_item_cut, Ha, Hb by done.
    unfold _validate_range. simpl. by destruct (Z.leb_spec b a); [|lia].
  - intros ranges rs. rewrite parse_clip_ranges_unfold.
    case_bool_decide as Hitems; [by split; [|intros []]|].
    split.
    + intros (rs' & -> & H)%parse_items_ok_inv. done.
    + intros [_ H]. by rewrite (parse_items_ok _ _ [] H).
  - intros ranges pre item post rs e Hitems Hpre He.
    rewrite parse_clip_ranges_unfold, Hitems.
    case_bool_decide as Hnil; [by destruct pre|].
    by eapply parse_items_raise.
  - intros a b Hab.
    apply (parse_clip_ranges_join [(a, b)]); [done|].
    constructor; [done | constructor].
  - intros a b Hab. rewrite parse_clip_ranges_unfold.
    pose proof (range_items_clean [range_text (a, b)]) as Hitems.
    cbn [Py.join] in Hitems. rewrite Hitems; [|..|done].
    + rewrite bool_decide_false by done. cbn [parse_items].
      rewrite parse_item_range_text by lia.
      by destruct (Z.leb_spec b a); [|lia].
    + constructor; [|constructor]. apply range_text_chars; simpl; lia.
  - apply parse_clip_ranges_join.
Qed.

Lemma parse_clip_ranges_spec_witness :
  (0 ≤ 5 < 9 ∧ parse_clip_ranges (range_text (5, 9)) = Ok [(5, 9)])
  ∧ (0 ≤ 7 ≤ 7
     ∧ parse_clip_ranges (range_text (7, 7))
       = Raise (Clipper NonPositiveDuration))
  ∧ (parse_item "3-4" = Ok (3, 4) ∧ Py.count "-" "3-4" = 1%nat).
Proof.
  destruct parse_clip_ranges_spec
    as (_ & _ & _ & Hinv & _ & _ & _ & Hone & Hbad & _).
  split; [split; [lia | apply (Hone 5 9); lia]|].
  split; [split; [lia | apply (Hbad 7 7); lia]|].
  split; [reflexivity|].
  apply (Hinv "3-4" (3, 4)). reflexivity.
Defined.

(** *** Segments with several minus signs *)

(** The start part of a segment holds no minus sign, so it parses or fails
    with [InvalidTimestamp]. *)
Lemma parse_time_no_minus_cases s :
  Py.contains "-" s = false →
  (∃ a, parse_time s = Ok a) ∨ parse_time s = Raise (Clipper InvalidTimestamp).
Proof.
  intros Hs. rewrite parse_time_int.
  destruct (Py.int s) as [n|] eqn:E; [|by right].
  pose proof (int_no_minus_nonneg _ _ Hs E).
  left. exists n. by destruct (Z.ltb_spec n 0); [lia|].
Qed.

(** An end part that holds a minus sign denotes no positive number. *)
Lemma int_minus_nonpos t n :
  Py.contains "-" t = true → Py.int t = Some n → n ≤ 0.
Proof.
  intros Ht Hint. destruct (Z.lt_ge_cases 0 n) as [Hn|Hn]; [|lia].
  by rewrite (int_pos_no_minus _ _ Hint Hn) in Ht.
Qed.

(** It denotes a number only when the minus sign is its sign. *)
Lemma int_minus_inner t :
  Py.contains "-" t = true → Py.startswith (Py.strip t) "-" = false →
  Py.int t = None.
Proof.
  intros Ht Hhead. rewrite <- (contains_strip "-" t) in Ht by done.
  unfold Py.int. destruct (Py.strip t) as [|c r]; [done|].
  cbn [Py.startswith] in Hhead. rewrite andb_true_r in Hhead.
  cbn [Py.contains] in Ht. rewrite Hhead in *. simpl in Ht.
  destruct (Ascii.eqb c "+").
  - destruct (Py.int_digits false 0 r) as [n|] eqn:E; [|done].
    by rewrite (int_digits_no_char "-" _ _ _ _ literal_char_not_minus E) in Ht.
  - destruct (Py.int_digits false 0 (String c r)) as [n|] eqn:E; [|done].
    pose proof (int_digits_no_char "-" _ _ _ _ literal_char_not_minus E) as H.
    cbn [Py.contains] in H. by rewrite Hhead, Ht in H.
Qed.

(** The outcome of a segment whose end part holds a further minus sign. *)
Lemma parse_item_multi_dash start_text end_text :
  Py.contains "-" start_text = false → Py.contains "-" end_text = true →
  parse_item (start_text +:+ String "-" end_text) =
  match parse_time start_text, Py.int end_text with
  | Ok _, Some n =>
      if n <? 0 then Raise (Clipper NegativeTimestamp)
      else Raise (Clipper NonPositiveDuration)
  | _, _ => Raise (Clipper InvalidTimestamp)
  end.
Proof.
  intros Hs Ht. rewrite parse_item_cut by done.
  destruct (parse_time_no_minus_cases _ Hs) as [[a Ha] | ->]; [|done].
  pose proof Ha as [_ Hpos]%parse_time_ok_inv.
  rewrite Ha, parse_time_int. simpl.
  destruct (Py.int end_text) as [n|] eqn:E; [|done].
  pose proof (int_minus_nonpos _ _ Ht E).
  destruct (Z.ltb_spec n 0); [done|].
  unfold _validate_range. simpl. by destruct (Z.leb_spec n a); [|lia].
Qed.

Lemma count_ge_2_cut item :
  (2 ≤ Py.count "-" item)%nat →
  ∃ start_text end_text,
    item = start_text +:+ String "-" end_text
    ∧ Py.contains "-" start_text = false
    ∧ Py.contains "-" end_text = true.
Proof.
  intros Hcount.
  destruct (Py.contains "-" item) eqn:Hdash;
    [|apply count_contains in Hdash; lia].
  destruct (split1_sep _ _ Hdash) as (a & b & _ & -> & Ha).
  exists a, b. repeat split; [done|].
  rewrite count_app in Hcount. cbn [Py.count] in Hcount.
  rewrite Ascii.eqb_refl in Hcount.
  pose proof Ha as Ha'%count_contains.
  destruct (Py.contains "-" b) eqn:Hb; [done|].
  apply count_contains in Hb. lia.
Qed.

(** C10, as it is worded, does not hold: a segment with more than one ['-']
    need not fail with [InvalidTimestamp]; ["5--3"] fails with
    [NegativeTimestamp]. *)
Lemma multi_dash_not_always_invalid :
  (2 ≤ Py.count "-" "5--3")%nat
  ∧ parse_clip_ranges "5--3" = Raise (Clipper NegativeTimestamp)
  ∧ ¬ (∀ item, (2 ≤ Py.count "-" item)%nat →
               parse_item item = Raise (Clipper InvalidTimestamp)).
Proof.
  split; [vm_compute; lia|]. split; [reflexivity|].
  intros H. specialize (H "5--3" ltac:(vm_compute; lia)).
  vm_compute in H. discriminate.
Qed.

(** C10, amended: a segment is cut at its first ['-'] only.  A segment that
    begins with ['-'] fails with [InvalidTimestamp], from its empty start
    part.  A segment with more than one ['-'] never parses and never fails
    with [MalformedRange]: it fails with [InvalidTimestamp], unless its start
    part parses and its end part (all that follows the first ['-']) is
    itself an integer literal, which then carries the sign ['-'] and gives
    [NegativeTimestamp] when negative and [NonPositiveDuration] when zero.
    [NegativeTimestamp] never comes from the start part. *)
Theorem parse_item_first_dash :
  (∀ item, Py.startswith item "-" = true →
           parse_item item = Raise (Clipper InvalidTimestamp))
  ∧ (∀ item, (2 ≤ Py.count "-" item)%nat →
       ∃ start_text end_text,
         item = start_text +:+ String "-" end_text
         ∧ Py.contains "-" start_text = false
         ∧ parse_item item =
           match parse_time start_text, Py.int end_text with
           | Ok _, Some n =>
               if n <? 0 then Raise (Clipper NegativeTimestamp)
               else Raise (Clipper NonPositiveDuration)
           | _, _ => Raise (Clipper InvalidTimestamp)
           end
         ∧ (Py.startswith (Py.strip end_text) "-" = false →
            parse_item item = Raise (Clipper InvalidTimestamp)))
  ∧ (∀ item, parse_item item = Raise (Clipper NegativeTimestamp) →
       ∃ start_text end_text a,
         item = start_text +:+ String "-" end_text
         ∧ Py.contains "-" start_text = false
         ∧ parse_time start_text = Ok a
         ∧ parse_time end_text = Raise (Clipper NegativeTimestamp))
  ∧ (∀ start_text, Py.contains "-" start_text = false →
       parse_time start_text ≠ Raise (Clipper NegativeTimestamp))
  ∧ parse_clip_ranges "-5-10" = Raise (Clipper InvalidTimestamp)
  ∧ parse_clip_ranges "10-30-40" = Raise (Clipper InvalidTimestamp)
  ∧ parse_clip_ranges "5--3" = Raise (Clipper NegativeTimestamp)
  ∧ parse_clip_ranges "5--0" = Raise (Clipper NonPositiveDuration).
Proof.
  repeat apply conj; try reflexivity.
  - intros [|c r]; [done|]. cbn [Py.startswith].
    rewrite andb_true_r. intros ->%Ascii.eqb_eq.
    by rewrite <- (append_nil_l (String "-" r)), parse_item_cut.
  - intros item (s & t & -> & Hs & Ht)%count_ge_2_cut.
    exists s, t. repeat split; [done | by apply parse_item_multi_dash |].
    intros Hhead. rewrite parse_item_multi_dash by done.
    rewrite (int_minus_inner _ Ht Hhead). by destruct (parse_time s).
  - intros item Hneg.
    destruct (Py.contains "-" item) eqn:Hdash;
      [|by rewrite parse_item_no_dash in Hneg].
    destruct (parse_item_dash _ Hdash) as (s & t & -> & Hs & Heq).
    rewrite Heq in Hneg. clear Heq.
    destruct (parse_time_no_minus_cases _ Hs) as [[a Ha] | Hbad];
      [|by rewrite Hbad in Hneg].
    exists s, t, a. repeat split; [done..|].
    rewrite Ha in Hneg.
    destruct (parse_time t) as [b|e]; simpl in Hneg; [|by injection Hneg as ->].
    unfold _validate_range in Hneg.
    by destruct (b <=? a).
  - apply parse_time_no_minus.
Qed.

Lemma parse_item_first_dash_witness :
  (Py.startswith "-5-10" "-" = true
   ∧ parse_item "-5-10" = Raise (Clipper InvalidTimestamp))
  ∧ (Py.contains "-" "12" = false
     ∧ parse_time "12" ≠ Raise (Clipper NegativeTimestamp)).
Proof.
  destruct parse_item_first_dash as (Hlead & _ & _ & Hstart & _).
  split; [split; [reflexivity | apply (Hlead "-5-10"); reflexivity]|].
  split; [reflexivity | apply (Hstart "12"); reflexivity].
Defined.

(** * AvailabilityInspector *)

(** One turn of the loop leaves the sets as they are, or adds the one height
    of the format to the any-codec set and, on the fast path, to the other. *)
Lemma heights_step_cases acc fmt :
  (heights_step acc fmt = acc ∧ ∀ h, ¬ video_height fmt h)
  ∨ ∃ h, video_height fmt h ∧ (∀ h', video_height fmt h' → h' = h)
      ∧ ((heights_step acc fmt = ({[h]} ∪ acc.1, {[h]} ∪ acc.2)
          ∧ fast_path_height fmt h)
         ∨ (heights_step acc fmt = (acc.1, {[h]} ∪ acc.2)
            ∧ ¬ fast_path_height fmt h)).
Proof.
  unfold heights_step, fast_path_height, video_height.
  destruct acc as [fast any].
  destruct (height fmt) as [h|] eqn:Hh;
    [|left; split; [done | by intros ? (? & _)]].
  destruct (vcodec fmt) as [vc|] eqn:Hvc;
    [|left; split; [by destruct h | by intros ? (_ & _ & ? & ? & _)]].
  destruct (decide (h = 0)) as [->|Hz];
    [left; split; [done | intros ? ([= <-] & ? & _); done]|].
  destruct (String.eqb_spec vc "none") as [->|Hnone].
  { left. split; [by destruct h | intros ? (_ & _ & ? & [= <-] & ?); done]. }
  right. exists h. split; [eauto 6|]. split; [by intros ? ([= ->] & _)|].
  assert (∀ A (x y : A), match h with 0 => x | _ => y end = y) as ->
    by by destruct h.
  cbn [fst snd].
  case_bool_decide as Hext; cbn [negb];
    [|right; split; [done | by intros (_ & ? & _)]].
  destruct (Py.startswith vc "avc1") eqn:Havc.
  - left. split; [done|]. eauto 10.
  - right. split; [done|]. intros (_ & _ & ? & [= <-] & ?). congruence.
Qed.

Lemma heights_step_all acc fmt h :
  h ∈ (heights_step acc fmt).2 ↔ h ∈ acc.2 ∨ video_height fmt h.
Proof.
  destruct (heights_step_cases acc fmt)
    as [[-> Hno] | (h0 & Hv & Huniq & [[-> _] | [-> _]])]; cbn [snd].
  - split; [by left | by intros [?|?%Hno]].
  - rewrite elem_of_union, elem_of_singleton.
    split; [intros [->|?]; [by right | by left]
           | intros [?|?%Huniq]; [by right | by left]].
  - rewrite elem_of_union, elem_of_singleton.
    split; [intros [->|?]; [by right | by left]
           | intros [?|?%Huniq]; [by right | by left]].
Qed.

Lemma heights_step_fast acc fmt h :
  h ∈ (heights_step acc fmt).1 ↔ h ∈ acc.1 ∨ fast_path_height fmt h.
Proof.
  destruct (heights_step_cases acc fmt)
    as [[-> Hno] | (h0 & Hv & Huniq & [[-> Hf] | [-> Hnf]])]; cbn [fst].
  - split; [by left | by intros [?|[?%Hno _]]].
  - rewrite elem_of_union, elem_of_singleton.
    split; [intros [->|?]; [by right | by left]
           | intros [?|[?%Huniq _]]; [by right | by left]].
  - split; [by left | intros [?|Hfp]; [done|]].
    pose proof Hfp as [E%Huniq _]. by subst.
Qed.

Lemma heights_fold_all fmts acc h :
  h ∈ (foldl heights_step acc fmts).2
  ↔ h ∈ acc.2 ∨ ∃ fmt, fmt ∈ fmts ∧ video_height fmt h.
Proof.
  revert acc. induction fmts as [|fmt fmts IH]; intros acc.
  - simpl. split; [by left | intros [?|(? & []%elem_of_nil & _)]; done].
  - simpl. rewrite IH, heights_step_all. split.
    + intros [[?|?]|(f & ? & ?)]; [by left | right..].
      * exists fmt. split; [left | done].
      * exists f. split; [by right | done].
    + intros [?|(f & [->|?]%elem_of_cons & ?)]; [by do 2 left | |].
      * left. by right.
      * right. by exists f.
Qed.

Lemma heights_fold_fast fmts acc h :
  h ∈ (foldl heights_step acc fmts).1
  ↔ h ∈ acc.1 ∨ ∃ fmt, fmt ∈ fmts ∧ fast_path_height fmt h.
Proof.
  revert acc. induction fmts as [|fmt fmts IH]; intros acc.
  - simpl. split; [by left | intros [?|(? & []%elem_of_nil & _)]; done].
  - simpl. rewrite IH, heights_step_fast. split.
    + intros [[?|?]|(f & ? & ?)]; [by left | right..].
      * exists fmt. split; [left | done].
      * exists f. split; [by right | done].
    + intros [?|(f & [->|?]%elem_of_cons & ?)]; [by do 2 left | |].
      * left. by right.
      * right. by exists f.
Qed.

(** [sorted] lists the elements of the set, each once, in ascending order. *)
Lemma elem_of_sorted (s : gset Z) h : h ∈ sorted s ↔ h ∈ s.
Proof. unfold sorted. by rewrite merge_sort_Permutation, elem_of_elements. Qed.

Lemma StronglySorted_le_lt (l : list Z) :
  StronglySorted Z.le l → NoDup l → StronglySorted Z.lt l.
Proof.
  induction 1 as [|x l Hl IH Hx]; [constructor|].
  intros [Hnotin Hnodup]%NoDup_cons. constructor; [by apply IH|].
  apply Forall_forall. intros y Hy.
  pose proof (proj1 (Forall_forall _ _) Hx y Hy).
  assert (x ≠ y) by (intros ->; done). lia.
Qed.

Lemma sorted_ascending (s : gset Z) : StronglySorted Z.lt (sorted s).
Proof.
  apply StronglySorted_le_lt.
  - apply StronglySorted_merge_sort; apply _.
  - unfold sorted. rewrite merge_sort_Permutation. apply NoDup_elements.
Qed.

Lemma classify_heights_eq data :
  classify_heights data =
  (sorted (foldl heights_step (∅, ∅) (default [] (formats data))).1,
   sorted (foldl heights_step (∅, ∅) (default [] (formats data))).2).
Proof.
  unfold classify_heights.
  by destruct (foldl heights_step (∅, ∅) (default [] (formats data))).
Qed.

(** C3: a format adds its height to the any-codec set exactly when it has a
    non-zero height and a video codec that is present (neither missing nor
    ["none"]), and to the fast-path set exactly when, moreover, its extension
    is [mp4] and its video codec starts with [avc1]; both results hold each
    height once, in ascending order; on the inventory with heights 480, 720
    and 1080 of which only 720 is H.264 in mp4, the result is [[720]] and
    [[480; 720; 1080]]. *)
Theorem classify_heights_spec :
  (∀ acc fmt h,
     (h ∈ (heights_step acc fmt).2 ↔ h ∈ acc.2 ∨ video_height fmt h)
     ∧ (h ∈ (heights_step acc fmt).1 ↔ h ∈ acc.1 ∨ fast_path_height fmt h))
  ∧ (∀ data h,
       h ∈ (classify_heights data).2
       ↔ ∃ fmt, fmt ∈ default [] (formats data) ∧ video_height fmt h)
  ∧ (∀ data h,
       h ∈ (classify_heights data).1
       ↔ ∃ fmt, fmt ∈ default [] (formats data) ∧ fast_path_height fmt h)
  ∧ (∀ data,
       StronglySorted Z.lt (classify_heights data).1
       ∧ StronglySorted Z.lt (classify_heights data).2)
  ∧ (∀ exec json_loads url w data w',
       _inspect_formats exec json_loads url w = (Ok data, w') →
       _available_heights exec json_loads url w
       = (Ok (classify_heights data), w'))
  ∧ classify_heights inventory_doc = ([720], [480; 720; 1080]).
Proof.
  repeat apply conj.
  - intros acc fmt h. split; [apply heights_step_all | apply heights_step_fast].
  - intros data h. rewrite classify_heights_eq. cbn [snd].
    rewrite elem_of_sorted, heights_fold_all. cbn [snd].
    split; [intros [[]%elem_of_empty|?]; done | by right].
  - intros data h. rewrite classify_heights_eq. cbn [fst].
    rewrite elem_of_sorted, heights_fold_fast. cbn [fst].
    split; [intros [[]%elem_of_empty|?]; done | by right].
  - intros data. rewrite classify_heights_eq. split; apply sorted_ascending.
  - intros exec json_loads url w data w' H.
    unfold _available_heights, bind. by rewrite H.
  - by vm_compute.
Qed.

Lemma classify_heights_spec_witness :
  _inspect_formats exec_double json_double "u" world_double
  = (Ok inventory_doc,
     (_inspect_formats exec_double json_double "u" world_double).2)
  ∧ (_available_heights exec_double json_double "u" world_double).1
    = Ok ([720], [480; 720; 1080]).
Proof.
  assert (_inspect_formats exec_double json_double "u" world_double
          = (Ok inventory_doc,
             (_inspect_formats exec_double json_double "u" world_double).2))
    as H by reflexivity.
  split; [exact H|].
  destruct classify_heights_spec as (_ & _ & _ & _ & Hrun & Hinv).
  by rewrite (Hrun _ _ _ _ _ _ H), Hinv.
Defined.

(** * FormatSelector *)

(** C5: for every height, [_format_selector height true] is the selector
    that asks for the best video stream at exactly that height plus the
    best audio, else the best pre-muxed stream at that height, with no codec
    or container filter, and no merge container; [_format_selector height
    false] is the selector restricted to [avc1] video in [mp4] at exactly
    that height plus [mp4a] audio, else the best pre-muxed [mp4] stream at
    that height, with [mp4] as the merge container. *)
Theorem format_selector_spec :
  (∀ height,
     _format_selector height true
     = (render_selector (reencode_selector height), None)
     ∧ Forall (Forall (fun s =>
                 Forall (fun f => constrains_codec_or_container f = false)
                        (stream_filters s)))
              (reencode_selector height)
     ∧ _format_selector height false
       = (render_selector (fast_path_selector "mp4" height), Some "mp4"))
  ∧ _format_selector 720 true = ("bv*[height=720]+ba/b[height=720]", None)
  ∧ _format_selector 720 false
    = ("bv*[vcodec^=avc1][ext=mp4][height=720]+ba[acodec^=mp4a]/b[ext=mp4][height=720]",
       Some "mp4").
Proof.
  split; [|by split].
  intros height. repeat apply conj.
  - unfold _format_selector, render_selector, reencode_selector,
      render_stream, render_filter.
    cbn [map foldr Py.join stream_name stream_filters].
    by rewrite !append_assoc.
  - repeat constructor.
  - unfold _format_selector, render_selector, fast_path_selector,
      render_stream, render_filter.
    cbn [map foldr Py.join stream_name stream_filters].
    by rewrite !append_assoc.
Qed.

(** * The process layer *)

Section Processes.

Variable exec : Cmd → Sys → Z * string * Sys.

(** A command starts one process, whatever its outcome. *)
Lemma run_command_calls cmd error r w w' :
  _run_command exec cmd error w = (r, w') → calls w' = calls w ++ [cmd].
Proof.
  unfold _run_command, subprocess_run.
  destruct (exec cmd (sys w)) as [[code out] s'].
  by destruct (code =? 0); intros [= <- <-].
Qed.

Lemma run_command_cases cmd error w :
  ∃ code out s',
    exec cmd (sys w) = (code, out, s')
    ∧ _run_command exec cmd error w =
        (if code =? 0 then Ok tt else Raise (Clipper error),
         {| sys := s'; calls := calls w ++ [cmd] |}).
Proof.
  unfold _run_command, subprocess_run.
  destruct (exec cmd (sys w)) as [[code out] s'].
  exists code, out, s'. split; [done|]. by destruct (code =? 0).
Qed.

Lemma run_ffmpeg_exists source start end_ output_path reencode w :
  path_exists output_path w = true →
  _run_ffmpeg exec source start end_ output_path reencode w
  = (Raise (Clipper (OutputAlreadyExists output_path)), w).
Proof. intros H. unfold _run_ffmpeg. by rewrite H. Qed.

Lemma run_ffmpeg_fresh source start end_ output_path reencode w :
  path_exists output_path w = false →
  _run_ffmpeg exec source start end_ output_path reencode w
  = _run_command exec (ffmpeg_cmd source start end_ output_path reencode)
      ExtractionFailed w.
Proof. intros H. unfold _run_ffmpeg. by rewrite H. Qed.

(** C7: whatever the source, the range and the mode, [_run_ffmpeg] fails
    with [OutputAlreadyExists] when the output path exists, before any
    process is started and without touching the world; otherwise it starts
    the encode engine once, with [-n] and without [-y]; so a second
    extraction to the path of an artifact fails with [OutputAlreadyExists]
    and leaves the world, the artifact included, as the first one left it. *)
Theorem run_ffmpeg_never_overwrites :
  (∀ source start end_ output_path reencode w,
     path_exists output_path w = true →
     _run_ffmpeg exec source start end_ output_path reencode w
     = (Raise (Clipper (OutputAlreadyExists output_path)), w))
  ∧ (∀ source start end_ output_path reencode w,
       path_exists output_path w = false →
       ∃ code out s',
         exec (ffmpeg_cmd source start end_ output_path reencode) (sys w)
         = (code, out, s')
         ∧ _run_ffmpeg exec source start end_ output_path reencode w
           = (if code =? 0 then Ok tt else Raise (Clipper ExtractionFailed),
              {| sys := s';
                 calls := calls w
                          ++ [ffmpeg_cmd source start end_ output_path reencode] |}))
  ∧ (∀ source start end_ output_path reencode,
       (source ≠ "-y" → output_path ≠ "-y" →
        "-y" ∉ ffmpeg_cmd source start end_ output_path reencode)
       ∧ "-n" ∈ ffmpeg_cmd source start end_ output_path reencode)
  ∧ (∀ source start end_ source' start' end' output_path reencode reencode'
       w w1,
       _run_ffmpeg exec source start end_ output_path reencode w = (Ok tt, w1) →
       path_exists output_path w1 = true →
       _run_ffmpeg exec source' start' end' output_path reencode' w1
       = (Raise (Clipper (OutputAlreadyExists output_path)), w1)).
Proof.
  repeat apply conj.
  - apply run_ffmpeg_exists.
  - intros source start end_ output_path reencode w H.
    rewrite run_ffmpeg_fresh by done. apply run_command_cases.
  - intros source start end_ output_path reencode. split.
    + intros Hs Ho.
      assert (∀ n, Py.str n ≠ "-y") as Hstr.
      { intros n E. destruct n as [|q|q]; [done | |].
        - pose proof (str_digits (Z.pos q) ltac:(lia)) as H.
          by rewrite E in H.
        - rewrite str_neg in E. injection E as E.
          pose proof (str_digits (Z.pos q) ltac:(lia)) as H.
          by rewrite E in H. }
      unfold ffmpeg_cmd. destruct reencode;
        rewrite !not_elem_of_cons; repeat split;
        try apply not_elem_of_nil; try done;
        intros E; symmetry in E; by apply Hstr in E.
    + unfold ffmpeg_cmd. destruct reencode; set_solver.
  - intros source start end_ source' start' end' output_path reencode
      reencode' w w1 _ H. by apply run_ffmpeg_exists.
Qed.

End Processes.

(** * Paths and the file system *)

Lemma startswith_app p t : Py.startswith (p +:+ t) p = true.
Proof.
  induction p as [|c r IH]; [done|].
  rewrite append_cons. cbn [Py.startswith]. by rewrite Ascii.eqb_refl, IH.
Qed.

Lemma startswith_app_cancel a x y :
  Py.startswith (a +:+ x) (a +:+ y) = Py.startswith x y.
Proof.
  induction a as [|c r IH]; [done|].
  rewrite !append_cons. cbn [Py.startswith]. by rewrite Ascii.eqb_refl, IH.
Qed.

Lemma rpartition_some c s a b :
  rpartition c s = Some (a, b) → s = a +:+ String c b.
Proof.
  revert a. induction s as [|d r IH]; intros a; [done|].
  simpl. destruct (rpartition c r) as [[a' b']|].
  - intros [= <- <-]. rewrite append_cons. f_equal. by apply IH.
  - destruct (Ascii.eqb_spec d c) as [->|]; [|done]. by intros [= <- <-].
Qed.

Lemma is_source_of_within workdir p :
  is_source_of workdir p = true → within workdir p = true.
Proof.
  unfold is_source_of, within.
  destruct (rpartition "/" p) as [[d name]|] eqn:E; [|done].
  intros [->%String.eqb_eq _]%andb_true_iff.
  apply rpartition_some in E as ->.
  apply orb_true_iff. right.
  change (String "/" name) with ("/" +:+ name).
  rewrite <- append_assoc. apply startswith_app.
Qed.

(** The artifacts lie outside the workspace. *)
Lemma clip_path_outside outdir w run_stamp output_format r :
  within (job_workdir outdir w) (clip_path outdir run_stamp output_format r)
  = false.
Proof.
  unfold within, job_workdir, tmp_path, clip_path, path_join.
  apply orb_false_iff. split.
  - apply String.eqb_neq. intros E%(inj (String.app outdir)). done.
  - rewrite append_assoc, startswith_app_cancel. done.
Qed.

Lemma elem_of_rmtree d w p :
  p ∈ files (sys (rmtree d w)) ↔ p ∈ files (sys w) ∧ within d p = false.
Proof. unfold rmtree, set_files. simpl. rewrite elem_of_filter. tauto. Qed.

Lemma calls_rmtree d w : calls (rmtree d w) = calls w.
Proof. done. Qed.

Lemma now_rmtree d w : now (sys (rmtree d w)) = now (sys w).
Proof. done. Qed.

(** *** Messages *)

Lemma occurs_in_refl s : occurs_in s s.
Proof. exists "", "". by rewrite append_nil_l, append_nil_r. Qed.

Lemma occurs_in_app_l s t u : occurs_in s t → occurs_in s (u +:+ t).
Proof.
  intros (b & a & ->). exists (u +:+ b), a. by rewrite append_assoc.
Qed.

Lemma occurs_in_app_r s t u : occurs_in s t → occurs_in s (t +:+ u).
Proof.
  intros (b & a & ->). exists b, (a +:+ u). by rewrite !append_assoc.
Qed.

Lemma occurs_in_join sep l x : x ∈ l → occurs_in x (Py.join sep l).
Proof.
  induction l as [|y l IH]; [by intros ?%elem_of_nil|].
  destruct l as [|z l].
  - intros ->%list_elem_of_singleton. apply occurs_in_refl.
  - rewrite join_cons. intros [->|Hx]%elem_of_cons.
    + apply occurs_in_app_r, occurs_in_refl.
    + by apply occurs_in_app_l, occurs_in_app_l, IH.
Qed.

(** Every height of the list is printed in the text of the list. *)
Lemma heights_text_lists hs h : h ∈ hs → occurs_in (Py.str h) (heights_text hs).
Proof.
  intros Hh. unfold heights_text.
  assert (occurs_in (Py.str h) (Py.join ", " (map Py.str hs))) as Hocc.
  { apply occurs_in_join. by apply (list_elem_of_fmap_2 Py.str). }
  destruct (Py.join ", " (map Py.str hs)) as [|c r] eqn:E; [|done].
  destruct Hocc as (b & a & Hocc). pose proof (str_nonempty h) as Hne.
  destruct b; [|done]. rewrite append_nil_l in Hocc.
  by destruct (Py.str h).
Qed.

Lemma heights_text_none : heights_text [] = "none".
Proof. done. Qed.

(** * The orchestrator *)

Section Orchestrator.

Variable exec : Cmd → Sys → Z * string * Sys.
Variable json_loads : string → option Metadata.

Lemma inspect_formats_calls url r w w' :
  _inspect_formats exec json_loads url w = (r, w') →
  calls w' = calls w ++ [inspect_cmd url].
Proof.
  unfold _inspect_formats, subprocess_run.
  destruct (exec (inspect_cmd url) (sys w)) as [[code out] s'].
  destruct (code =? 0); [destruct (json_loads out)|]; by intros [= <- <-].
Qed.

Lemma available_heights_inv url w r w' :
  _available_heights exec json_loads url w = (r, w') →
  calls w' = calls w ++ [inspect_cmd url]
  ∧ ((∃ data, _inspect_formats exec json_loads url w = (Ok data, w')
              ∧ r = Ok (classify_heights data))
     ∨ (∃ e, r = Raise (Clipper e)
             ∧ (e = MetadataFetchFailed ∨ e = MetadataParseFailed))).
Proof.
  unfold _available_heights, bind.
  destruct (_inspect_formats exec json_loads url w) as [[data|e] w1] eqn:E.
  - intros [= <- <-]. split; [by eapply inspect_formats_calls|].
    left. by exists data.
  - intros [= <- <-]. split; [by eapply inspect_formats_calls|].
    right. revert E. unfold _inspect_formats, subprocess_run.
    destruct (exec (inspect_cmd url) (sys w)) as [[code out] s'].
    destruct (code =? 0); [destruct (json_loads out)|];
      intros [= <- <-]; eauto.
Qed.

Lemma download_source_calls url workdir selector merge r w w' :
  _download_source exec url workdir selector merge w = (r, w') →
  calls w' = calls w ++ [download_cmd url workdir selector merge].
Proof.
  unfold _download_source, bind.
  destruct (_run_command exec _ DownloadFailed w) as [[[]|e] w1] eqn:E.
  - apply run_command_calls in E.
    destruct (glob_source workdir w1); by intros [= <- <-].
  - apply run_command_calls in E. by intros [= <- <-].
Qed.

(** The file that the download returns exists and lies in the workspace. *)
Lemma download_source_within url workdir selector merge source w w' :
  _download_source exec url workdir selector merge w = (Ok source, w') →
  source ∈ files (sys w') ∧ within workdir source = true.
Proof.
  unfold _download_source, bind.
  destruct (_run_command exec _ DownloadFailed w) as [[[]|e] w1]; [|done].
  destruct (glob_source workdir w1) as [|c l] eqn:E; [done|].
  intros [= <- <-].
  assert (c ∈ glob_source workdir w1) as Hc by (rewrite E; left).
  unfold glob_source in Hc.
  rewrite merge_sort_Permutation in Hc.
  apply list_elem_of_filter in Hc as [Hsrc Hc].
  apply elem_of_elements in Hc. split; [done|].
  by apply is_source_of_within.
Qed.

Lemma ensure_dependencies_ok w :
  "ffmpeg" ∈ executables (sys w) → "yt-dlp" ∈ executables (sys w) →
  _ensure_dependencies w = (Ok tt, w).
Proof.
  intros H1 H2. unfold _ensure_dependencies.
  rewrite !filter_cons, filter_nil.
  destruct (decide ("ffmpeg" ∉ executables (sys w))); [done|].
  by destruct (decide ("yt-dlp" ∉ executables (sys w))).
Qed.

(** Past its two checks, [clip_url] is the job in its workspace, followed
    by the removal of the workspace. *)
Lemma clip_url_enters_job url ranges outdir reencode output_format
    quality_height w :
  "ffmpeg" ∈ executables (sys w) → "yt-dlp" ∈ executables (sys w) →
  0 < quality_height →
  clip_url exec json_loads url ranges outdir reencode output_format
    quality_height w
  = ((clip_job exec json_loads url ranges outdir reencode output_format
        quality_height (job_workdir outdir w) (job_world outdir w)).1,
     rmtree (job_workdir outdir w)
       (clip_job exec json_loads url ranges outdir reencode output_format
          quality_height (job_workdir outdir w) (job_world outdir w)).2).
Proof.
  intros H1 H2 Hq. unfold clip_url, bind.
  rewrite ensure_dependencies_ok by done.
  destruct (Z.leb_spec quality_height 0); [lia|].
  unfold mkdir, with_TemporaryDirectory.
  change (tmp_path "youtubeclipper_" outdir
            (set_files (λ fs, {[outdir]} ∪ fs) w))
    with (job_workdir outdir w).
  fold (job_world outdir w).
  by destruct (clip_job _ _ _ _ _ _ _ _ _ _) as [r w'].
Qed.

Lemma calls_job_world outdir w : calls (job_world outdir w) = calls w.
Proof. done. Qed.

Lemma now_job_world outdir w : now (sys (job_world outdir w)) = now (sys w).
Proof. done. Qed.

(** C2: once the workspace is created, nothing of it is left when [clip_url]
    returns or raises, whatever the outcome of the job; in particular a file
    returned by the download, which lies in the workspace, is gone. *)
Theorem clip_url_removes_workspace :
  ∀ url ranges outdir reencode output_format quality_height w,
    "ffmpeg" ∈ executables (sys w) → "yt-dlp" ∈ executables (sys w) →
    0 < quality_height →
    let workdir := job_workdir outdir w in
    let final :=
      (clip_url exec json_loads url ranges outdir reencode output_format
         quality_height w).2 in
    workdir ∈ files (sys (job_world outdir w))
    ∧ (∀ p, within workdir p = true → p ∉ files (sys final))
    ∧ (workdir ∉ files (sys final))
    ∧ (∀ selector merge w1 source w2,
         _download_source exec url workdir selector merge w1 = (Ok source, w2) →
         source ∈ files (sys w2) ∧ (source ∉ files (sys final))).
Proof.
  intros url ranges outdir reencode output_format quality_height w H1 H2 Hq
    workdir final.
  assert (∀ p, within workdir p = true → p ∉ files (sys final)) as Hgone.
  { intros p Hp. unfold final. rewrite clip_url_enters_job by done.
    cbn [snd]. rewrite elem_of_rmtree. fold workdir. intros [_ Hout].
    congruence. }
  repeat apply conj.
  - unfold job_world, set_files. simpl. set_solver.
  - exact Hgone.
  - apply Hgone. unfold within. by rewrite String.eqb_refl.
  - intros selector merge w1 source w2 Hdl.
    apply download_source_within in Hdl as [Hin Hwithin]. auto.
Qed.

(** *** The extraction loop *)

Lemma run_ffmpeg_ok_inv source start end_ output_path reencode w w' :
  _run_ffmpeg exec source start end_ output_path reencode w = (Ok tt, w') →
  path_exists output_path w = false
  ∧ calls w' = calls w ++ [ffmpeg_cmd source start end_ output_path reencode].
Proof.
  unfold _run_ffmpeg. destruct (path_exists output_path w); [done|].
  intros H. split; [done|]. by eapply run_command_calls.
Qed.

(** A failed extraction is a refusal to overwrite, with no process started,
    or the failure of the one process started. *)
Lemma run_ffmpeg_raise_inv source start end_ output_path reencode w e w' :
  _run_ffmpeg exec source start end_ output_path reencode w = (Raise e, w') →
  (e = Clipper (OutputAlreadyExists output_path) ∧ w' = w)
  ∨ (e = Clipper ExtractionFailed
     ∧ calls w' = calls w ++ [ffmpeg_cmd source start end_ output_path reencode]).
Proof.
  unfold _run_ffmpeg. destruct (path_exists output_path w).
  - intros [= <- <-]. by left.
  - intros H. right. split; [|by eapply run_command_calls].
    destruct (run_command_cases exec
                (ffmpeg_cmd source start end_ output_path reencode)
                ExtractionFailed w) as (code & out & s' & _ & Heq).
    rewrite Heq in H. destruct (code =? 0); [done|]. by injection H as <- _.
Qed.

Lemma extracted_calls source outdir run_stamp output_format reencode rs w w' :
  extracted exec source outdir run_stamp output_format reencode rs w w' →
  calls w' =
  calls w
  ++ ((fun r => ffmpeg_cmd source r.1 r.2
                  (clip_path outdir run_stamp output_format r) reencode)
      <$> rs).
Proof.
  induction 1 as [w|r rs w w1 w2 Hstep _ IH].
  - by rewrite app_nil_r.
  - apply run_ffmpeg_ok_inv in Hstep as [_ Hstep].
    by rewrite IH, Hstep, fmap_cons, <- app_assoc.
Qed.

(** The loop extracts every range, or stops at the first that fails. *)
Lemma extract_ranges_cases source outdir run_stamp output_format reencode
    ranges outputs w :
  (∃ w',
     extracted exec source outdir run_stamp output_format reencode ranges w w'
     ∧ extract_ranges exec source outdir run_stamp output_format reencode
         ranges outputs w
       = (Ok (outputs ++ (clip_path outdir run_stamp output_format <$> ranges)),
          w'))
  ∨ (∃ pre r post e wk w',
       ranges = pre ++ r :: post
       ∧ extracted exec source outdir run_stamp output_format reencode pre w wk
       ∧ _run_ffmpeg exec source r.1 r.2
           (clip_path outdir run_stamp output_format r) reencode wk
         = (Raise e, w')
       ∧ extract_ranges exec source outdir run_stamp output_format reencode
           ranges outputs w
         = (Raise e, w')).
Proof.
  revert outputs w. induction ranges as [|r rs IH]; intros outputs w.
  - left. exists w. split; [constructor|]. by rewrite app_nil_r.
  - cbn [extract_ranges]. unfold bind.
    destruct (_run_ffmpeg exec source r.1 r.2
                (clip_path outdir run_stamp output_format r) reencode w)
      as [[[]|e] w1] eqn:Hstep.
    + destruct (IH (outputs ++ [clip_path outdir run_stamp output_format r]) w1)
        as [(w' & Hrs & Heq) | (pre & r' & post & e & wk & w' & -> & Hpre & Hr' & Heq)].
      * left. exists w'. split; [by econstructor|].
        by rewrite Heq, fmap_cons, <- app_assoc.
      * right. exists (r :: pre), r', post, e, wk, w'.
        split; [done|]. split; [by econstructor|]. done.
    + right. exists [], r, rs, e, w, w1.
      split; [done|]. split; [constructor|]. done.
Qed.

(** What follows the first failing range plays no part. *)
Lemma extract_ranges_stops source outdir run_stamp output_format reencode
    pre r post outputs w wk e w' :
  extracted exec source outdir run_stamp output_format reencode pre w wk →
  _run_ffmpeg exec source r.1 r.2
    (clip_path outdir run_stamp output_format r) reencode wk = (Raise e, w') →
  extract_ranges exec source outdir run_stamp output_format reencode
    (pre ++ r :: post) outputs w = (Raise e, w').
Proof.
  intros Hpre Hr. revert outputs.
  induction Hpre as [w|x pre w w1 wk Hx _ IH]; intros outputs.
  - cbn [app extract_ranges]. unfold bind. by rewrite Hr.
  - cbn [app extract_ranges]. unfold bind. rewrite Hx. by apply IH.
Qed.

Lemma extract_ranges_calls source outdir run_stamp output_format reencode
    ranges outputs w r w' :
  extract_ranges exec source outdir run_stamp output_format reencode
    ranges outputs w = (r, w') →
  ∃ later, calls w' = calls w ++ later.
Proof.
  destruct (extract_ranges_cases source outdir run_stamp output_format
              reencode ranges outputs w)
    as [(w1 & Hrs & ->) | (pre & r' & post & e & wk & w1 & _ & Hpre & Hr' & ->)];
    intros [= <- <-].
  - eexists. by apply extracted_calls.
  - apply extracted_calls in Hpre.
    apply run_ffmpeg_raise_inv in Hr' as [[_ ->] | [_ ->]]; rewrite Hpre.
    + by eexists.
    + rewrite <- app_assoc. by eexists.
Qed.

(** The job, once the metadata query has answered with [data]. *)
Lemma clip_job_after_inspect url ranges outdir reencode output_format
    quality_height workdir w data w1 :
  _inspect_formats exec json_loads url w = (Ok data, w1) →
  clip_job exec json_loads url ranges outdir reencode output_format
    quality_height workdir w
  = let available :=
      if reencode then (classify_heights data).2
      else (classify_heights data).1 in
    if bool_decide (quality_height ∈ available) then
      download_and_extract exec url ranges outdir reencode output_format
        quality_height workdir (now (sys w)) w1
    else if reencode then
      (Raise (Clipper (QualityUnavailable quality_height available)), w1)
    else
      (Raise (Clipper (QualityUnavailableFastPath quality_height available
                         (classify_heights data).2)), w1).
Proof.
  intros H. unfold clip_job, bind, _available_heights, bind, ret.
  rewrite H. destruct (classify_heights data) as [fast any]. cbn [fst snd].
  case_bool_decide; cbn [negb]; [done|]. by destruct reencode.
Qed.

(** Past the two checks and the metadata query. *)
Lemma clip_url_after_inspect url ranges outdir reencode output_format
    quality_height w data w1 :
  "ffmpeg" ∈ executables (sys w) → "yt-dlp" ∈ executables (sys w) →
  0 < quality_height →
  _inspect_formats exec json_loads url (job_world outdir w) = (Ok data, w1) →
  calls w1 = calls w ++ [inspect_cmd url]
  ∧ ∃ r w2,
      (if bool_decide (quality_height ∈ comparison_set reencode data)
       then download_and_extract exec url ranges outdir reencode
              output_format quality_height (job_workdir outdir w)
              (now (sys w)) w1
       else if reencode then
         (Raise (Clipper (QualityUnavailable quality_height
                            (classify_heights data).2)), w1)
       else
         (Raise (Clipper (QualityUnavailableFastPath quality_height
                            (classify_heights data).1
                            (classify_heights data).2)), w1))
      = (r, w2)
      ∧ clip_url exec json_loads url ranges outdir reencode output_format
          quality_height w
        = (r, rmtree (job_workdir outdir w) w2).
Proof.
  intros H1 H2 Hq Hinspect. split.
  { by rewrite (inspect_formats_calls _ _ _ _ Hinspect), calls_job_world. }
  rewrite clip_url_enters_job by done.
  rewrite (clip_job_after_inspect _ _ _ _ _ _ _ _ _ _ Hinspect).
  cbn zeta. rewrite now_job_world. unfold comparison_set.
  destruct reencode;
    (destruct (bool_decide _);
     [destruct (download_and_extract _ _ _ _ _ _ _ _ _ _) as [r w2]|];
     eauto).
Qed.

(** The end of the job, once the download has returned [source]. *)
Lemma download_and_extract_after_download url ranges outdir reencode
    output_format quality_height workdir run_stamp w source w2 :
  _download_source exec url workdir
    (_format_selector quality_height reencode).1
    (_format_selector quality_height reencode).2 w = (Ok source, w2) →
  calls w2 =
  calls w ++ [download_cmd url workdir
                (_format_selector quality_height reencode).1
                (_format_selector quality_height reencode).2]
  ∧ download_and_extract exec url ranges outdir reencode output_format
      quality_height workdir run_stamp w
    = if negb reencode
         && negb (String.eqb (Py.lstrip_char "." (path_suffix source))
                    output_format)
      then (Raise (Clipper (OutputFormatMismatch
                              (Py.lstrip_char "." (path_suffix source))
                              output_format)), w2)
      else extract_ranges exec source outdir run_stamp output_format
             reencode ranges [] w2.
Proof.
  intros Hdl. split; [by eapply download_source_calls|].
  unfold download_and_extract, bind.
  destruct (_format_selector quality_height reencode) as [sel merge].
  cbn [fst snd] in Hdl. rewrite Hdl. by destruct (_ && _).
Qed.

Lemma download_and_extract_calls url ranges outdir reencode output_format
    quality_height workdir run_stamp w r w' :
  download_and_extract exec url ranges outdir reencode output_format
    quality_height workdir run_stamp w = (r, w') →
  ∃ later,
    calls w' =
    calls w ++ [download_cmd url workdir
                  (_format_selector quality_height reencode).1
                  (_format_selector quality_height reencode).2] ++ later.
Proof.
  destruct (_download_source exec url workdir
              (_format_selector quality_height reencode).1
              (_format_selector quality_height reencode).2 w)
    as [[source|e] wd] eqn:Hdl.
  - destruct (download_and_extract_after_download url ranges outdir reencode
                output_format quality_height workdir run_stamp _ _ _ Hdl)
      as [Hcalls ->].
    destruct (_ && _).
    + intros [= <- <-]. exists []. by rewrite Hcalls.
    + intros (later & ->)%extract_ranges_calls.
      exists later. by rewrite Hcalls, <- app_assoc.
  - unfold download_and_extract, bind.
    destruct (_format_selector quality_height reencode) as [sel merge].
    cbn [fst snd] in Hdl. rewrite Hdl. intros [= <- <-].
    exists []. by rewrite (download_source_calls _ _ _ _ _ _ _ Hdl).
Qed.

(** C4: the height is looked up in the any-codec heights when re-encoding and
    in the fast-path heights otherwise; when it is absent the job fails, with
    [QualityUnavailable] and the any-codec heights when re-encoding, with
    [QualityUnavailableFastPath] and both lists otherwise, and the metadata
    query is the only process started; each height of the lists is printed
    in the message; when it is present the job goes on with the download.
    Against the inventory, 1080 is absent on the fast path and present when
    re-encoding. *)
Theorem clip_url_checks_quality :
  ∀ url ranges outdir reencode output_format quality_height w data w1,
    "ffmpeg" ∈ executables (sys w) → "yt-dlp" ∈ executables (sys w) →
    0 < quality_height →
    _inspect_formats exec json_loads url (job_world outdir w) = (Ok data, w1) →
    let workdir := job_workdir outdir w in
    let fast := (classify_heights data).1 in
    let any := (classify_heights data).2 in
    let outcome :=
      clip_url exec json_loads url ranges outdir reencode output_format
        quality_height w in
    (comparison_set true data = any ∧ comparison_set false data = fast)
    ∧ (quality_height ∉ comparison_set reencode data →
         outcome =
         (Raise (Clipper
                   (if reencode then QualityUnavailable quality_height any
                    else QualityUnavailableFastPath quality_height fast any)),
          rmtree workdir w1)
         ∧ calls outcome.2 = calls w ++ [inspect_cmd url])
    ∧ (quality_height ∈ comparison_set reencode data →
         ∃ r w2,
           download_and_extract exec url ranges outdir reencode output_format
             quality_height workdir (now (sys w)) w1 = (r, w2)
           ∧ outcome = (r, rmtree workdir w2)
           ∧ ∃ later,
               calls w2 =
               calls w
               ++ [inspect_cmd url;
                   download_cmd url workdir
                     (_format_selector quality_height reencode).1
                     (_format_selector quality_height reencode).2]
               ++ later)
    ∧ (∀ h, h ∈ any →
         occurs_in (Py.str h) (message (QualityUnavailable quality_height any))
         ∧ occurs_in (Py.str h)
             (message (QualityUnavailableFastPath quality_height fast any)))
    ∧ (∀ h, h ∈ fast →
         occurs_in (Py.str h)
           (message (QualityUnavailableFastPath quality_height fast any)))
    ∧ (1080 ∉ comparison_set false inventory_doc)
    ∧ 1080 ∈ comparison_set true inventory_doc.
Proof.
  intros url ranges outdir reencode output_format quality_height w data w1
    H1 H2 Hq Hinspect workdir fast any outcome.
  destruct (clip_url_after_inspect url ranges outdir reencode output_format
              quality_height w data w1 H1 H2 Hq Hinspect)
    as (Hcalls & r & w2 & Hrest & Hout).
  fold workdir outcome in Hout, Hrest. fold fast any in Hrest.
  repeat apply conj.
  - done.
  - done.
  - intros Hq'. rewrite bool_decide_false in Hrest by done.
    rewrite Hout. destruct reencode; injection Hrest as <- <-; by split.
  - intros Hq'. rewrite bool_decide_true in Hrest by done.
    exists r, w2. split; [done|]. split; [done|].
    apply download_and_extract_calls in Hrest as (later & ->).
    exists later. by rewrite Hcalls, <- app_assoc.
  - intros h Hh. split.
    + cbn [message]. do 4 apply occurs_in_app_l.
      by apply occurs_in_app_r, heights_text_lists.
    + cbn [message]. do 7 apply occurs_in_app_l.
      by apply occurs_in_app_r, heights_text_lists.
  - intros h Hh. cbn [message]. do 4 apply occurs_in_app_l.
    by apply occurs_in_app_r, heights_text_lists.
  - assert (comparison_set false inventory_doc = [720]) as -> by by vm_compute.
    by intros [=]%list_elem_of_singleton.
  - assert (comparison_set true inventory_doc = [480; 720; 1080]) as ->
      by by vm_compute.
    rewrite !elem_of_cons. auto.
Qed.

(** C6: on the fast path, after the one download, the extension of the file
    retrieved is compared with the output format, and a difference fails the
    job with [OutputFormatMismatch]: no other process is started, so nothing
    is extracted or remuxed; when re-encoding there is no such comparison,
    and the job goes on to the extractions whatever the extension. *)
Theorem clip_url_checks_container :
  ∀ url ranges outdir reencode output_format quality_height w data w1
    source w2,
    "ffmpeg" ∈ executables (sys w) → "yt-dlp" ∈ executables (sys w) →
    0 < quality_height →
    _inspect_formats exec json_loads url (job_world outdir w) = (Ok data, w1) →
    quality_height ∈ comparison_set reencode data →
    _download_source exec url (job_workdir outdir w)
      (_format_selector quality_height reencode).1
      (_format_selector quality_height reencode).2 w1 = (Ok source, w2) →
    let workdir := job_workdir outdir w in
    let source_ext := Py.lstrip_char "." (path_suffix source) in
    let outcome :=
      clip_url exec json_loads url ranges outdir reencode output_format
        quality_height w in
    let started :=
      calls w
      ++ [inspect_cmd url;
          download_cmd url workdir
            (_format_selector quality_height reencode).1
            (_format_selector quality_height reencode).2] in
    calls w2 = started
    ∧ (reencode = false → source_ext ≠ output_format →
         outcome =
         (Raise (Clipper (OutputFormatMismatch source_ext output_format)),
          rmtree workdir w2)
         ∧ calls outcome.2 = started)
    ∧ (reencode = true ∨ source_ext = output_format →
         ∃ r w3,
           extract_ranges exec source outdir (now (sys w)) output_format
             reencode ranges [] w2 = (r, w3)
           ∧ outcome = (r, rmtree workdir w3)).
Proof.
  intros url ranges outdir reencode output_format quality_height w data w1
    source w2 H1 H2 Hq Hinspect Hq' Hdl workdir source_ext outcome started.
  destruct (clip_url_after_inspect url ranges outdir reencode output_format
              quality_height w data w1 H1 H2 Hq Hinspect)
    as (Hcalls & r & w3 & Hrest & Hout).
  fold workdir outcome in Hout, Hrest.
  rewrite bool_decide_true in Hrest by done.
  destruct (download_and_extract_after_download url ranges outdir reencode
              output_format quality_height workdir (now (sys w)) _ _ _ Hdl)
    as [Hcalls2 Heq].
  rewrite Heq in Hrest. fold source_ext in Hrest. clear Heq.
  assert (calls w2 = started) as Hstarted.
  { unfold started. by rewrite Hcalls2, Hcalls, <- app_assoc. }
  repeat apply conj.
  - done.
  - intros Hre Hne. rewrite Hre in Hrest. cbn [negb andb] in Hrest.
    apply String.eqb_neq in Hne. rewrite Hne in Hrest. cbn [negb] in Hrest.
    injection Hrest as Hr Hw. rewrite Hout, <- Hr, <- Hw.
    split; [done | exact Hstarted].
  - intros Hok. exists r, w3. split; [|done].
    destruct Hok as [Hre | Heq].
    + rewrite Hre in Hrest |- *. exact Hrest.
    + apply String.eqb_eq in Heq. rewrite Heq, andb_false_r in Hrest.
      exact Hrest.
Qed.

(** C1: once the source is downloaded and accepted, [clip_url] extracts the
    ranges in input order, each to [outdir / clip_<start>_<end>_<stamp>.<format>],
    the stamp being the clock read at the start of the job, the same for all
    ranges whatever time passes.  Either every range is extracted, and the
    paths are returned in input order; or the job fails with the error of the
    first range whose extraction fails: the processes started are those of
    the ranges before it and at most its own, none for a later range, whose
    presence does not change the outcome; and what [clip_url] then removes is
    the workspace only, in which no artifact lies. *)
Theorem clip_url_extracts_in_order :
  ∀ url ranges outdir reencode output_format quality_height w data w1
    source w2,
    "ffmpeg" ∈ executables (sys w) → "yt-dlp" ∈ executables (sys w) →
    0 < quality_height →
    _inspect_formats exec json_loads url (job_world outdir w) = (Ok data, w1) →
    quality_height ∈ comparison_set reencode data →
    _download_source exec url (job_workdir outdir w)
      (_format_selector quality_height reencode).1
      (_format_selector quality_height reencode).2 w1 = (Ok source, w2) →
    reencode = true
    ∨ Py.lstrip_char "." (path_suffix source) = output_format →
    let workdir := job_workdir outdir w in
    let run_stamp := now (sys w) in
    let path := clip_path outdir run_stamp output_format in
    let cmd := fun r : ClipRange =>
      ffmpeg_cmd source r.1 r.2 (path r) reencode in
    let outcome := fun rs =>
      clip_url exec json_loads url rs outdir reencode output_format
        quality_height w in
    (∀ r, path r =
          path_join outdir
            ("clip_" +:+ Py.str r.1 +:+ "_" +:+ Py.str r.2 +:+ "_"
             +:+ run_stamp +:+ "." +:+ output_format)
          ∧ within workdir (path r) = false)
    ∧ ((∃ w3,
          extracted exec source outdir run_stamp output_format reencode
            ranges w2 w3
          ∧ outcome ranges = (Ok (path <$> ranges), rmtree workdir w3)
          ∧ calls w3 = calls w2 ++ (cmd <$> ranges))
       ∨ (∃ pre r post e wk w3,
            ranges = pre ++ r :: post
            ∧ extracted exec source outdir run_stamp output_format reencode
                pre w2 wk
            ∧ calls wk = calls w2 ++ (cmd <$> pre)
            ∧ _run_ffmpeg exec source r.1 r.2 (path r) reencode wk
              = (Raise (Clipper e), w3)
            ∧ ((e = OutputAlreadyExists (path r) ∧ w3 = wk)
               ∨ (e = ExtractionFailed ∧ calls w3 = calls wk ++ [cmd r]))
            ∧ outcome ranges = (Raise (Clipper e), rmtree workdir w3)
            ∧ outcome (pre ++ [r]) = outcome ranges
            ∧ (∀ p, within workdir p = false →
                    (p ∈ files (sys (outcome ranges).2)
                     ↔ p ∈ files (sys w3))))).
Proof.
  intros url ranges outdir reencode output_format quality_height w data w1
    source w2 H1 H2 Hq Hinspect Hq' Hdl Hfmt workdir run_stamp path cmd outcome.
  assert (∀ rs, ∃ r w3,
            extract_ranges exec source outdir run_stamp output_format
              reencode rs [] w2 = (r, w3)
            ∧ outcome rs = (r, rmtree workdir w3)) as Hloop.
  { intros rs.
    destruct (clip_url_after_inspect url rs outdir reencode output_format
                quality_height w data w1 H1 H2 Hq Hinspect)
      as (_ & r & w3 & Hrest & Hout).
    rewrite bool_decide_true in Hrest by done.
    destruct (download_and_extract_after_download url rs outdir reencode
                output_format quality_height workdir run_stamp _ _ _ Hdl)
      as [_ Heq].
    fold workdir run_stamp in Hrest. rewrite Heq in Hrest.
    exists r, w3. split; [|done].
    destruct Hfmt as [Hre | Hext].
    - rewrite Hre in Hrest |- *. exact Hrest.
    - apply String.eqb_eq in Hext. rewrite Hext, andb_false_r in Hrest.
      exact Hrest. }
  split.
  { intros r. split; [done | apply clip_path_outside]. }
  destruct (Hloop ranges) as (res & w3 & Hrun & Hout).
  destruct (extract_ranges_cases source outdir run_stamp output_format
              reencode ranges [] w2)
    as [(w' & Hrs & Heq)
       | (pre & r & post & e & wk & w' & Hranges & Hpre & Hr & Heq)];
    rewrite Heq in Hrun; injection Hrun as <- <-.
  - left. exists w'. split; [done|]. split; [done|].
    by apply extracted_calls.
  - right.
    assert (∃ e', e = Clipper e'
                  ∧ ((e' = OutputAlreadyExists (path r) ∧ w' = wk)
                     ∨ (e' = ExtractionFailed
                        ∧ calls w' = calls wk ++ [cmd r])))
      as (e' & -> & He').
    { destruct (run_ffmpeg_raise_inv _ _ _ _ _ _ _ _ Hr) as [[-> ->]|[-> Hc]];
        eexists; (split; [done|]); [left | right]; done. }
    exists pre, r, post, e', wk, w'.
    split; [done|]. split; [done|]. split; [by apply extracted_calls|].
    split; [done|]. split; [done|]. split; [done|]. split.
    + destruct (Hloop (pre ++ [r])) as (res & w3 & Hrun & Hout').
      rewrite Hout, Hout'.
      pose proof (extract_ranges_stops _ _ _ _ _ _ _ [] [] _ _ _ _ Hpre Hr)
        as Hstop.
      by pose proof (eq_trans (eq_sym Hrun) Hstop) as [= -> ->].
    + intros p Hp. rewrite Hout. cbn [snd]. rewrite elem_of_rmtree.
      fold workdir. tauto.
Qed.

End Orchestrator.

(** * The theorems on the doubles *)

Lemma world_double_tools :
  "ffmpeg" ∈ executables (sys world_double)
  ∧ "yt-dlp" ∈ executables (sys world_double).
Proof. split; apply (bool_decide_unpack _); by vm_compute. Qed.

Lemma run_ffmpeg_never_overwrites_witness :
  let first :=
    _run_ffmpeg exec_double "/in/source.mp4" 10 30 "/out/a.mp4" false
      world_double in
  first.1 = Ok tt
  ∧ path_exists "/out/a.mp4" first.2 = true
  ∧ _run_ffmpeg exec_double "/in/other.webm" 50 60 "/out/a.mp4" true first.2
    = (Raise (Clipper (OutputAlreadyExists "/out/a.mp4")), first.2).
Proof.
  intros first.
  assert (first = (Ok tt, first.2)) as Hfirst by (vm_compute; reflexivity).
  assert (path_exists "/out/a.mp4" first.2 = true) as Hexists
    by (vm_compute; reflexivity).
  split; [by rewrite Hfirst|]. split; [exact Hexists|].
  destruct (run_ffmpeg_never_overwrites exec_double) as (_ & _ & _ & Htwice).
  exact (Htwice "/in/source.mp4" 10 30 "/in/other.webm" 50 60 "/out/a.mp4"
           false true world_double first.2 Hfirst Hexists).
Defined.

Lemma clip_url_removes_workspace_witness :
  0 < 720
  ∧ "/out/youtubeclipper_ab12cd34"
    ∈ files (sys (job_world "/out" world_double))
  ∧ ("/out/youtubeclipper_ab12cd34/source.mp4"
     ∉ files (sys (clip_url exec_double json_double "u" [(10, 30); (45, 60)]
                     "/out" false "mp4" 720 world_double).2)).
Proof.
  destruct world_double_tools as [Hffmpeg Hytdlp].
  assert (0 < 720) as Hq by lia.
  pose proof (clip_url_removes_workspace exec_double json_double "u"
                [(10, 30); (45, 60)] "/out" false "mp4" 720 world_double
                Hffmpeg Hytdlp Hq) as H.
  cbv zeta in H. destruct H as (Hcreated & Hgone & _).
  split; [exact Hq|]. split; [exact Hcreated|].
  apply Hgone. reflexivity.
Defined.

Lemma clip_url_checks_quality_witness :
  let w1 :=
    (_inspect_formats exec_double json_double "u"
       (job_world "/out" world_double)).2 in
  0 < 1080
  ∧ _inspect_formats exec_double json_double "u"
      (job_world "/out" world_double) = (Ok inventory_doc, w1)
  ∧ (1080 ∉ comparison_set false inventory_doc)
  ∧ 1080 ∈ comparison_set true inventory_doc
  ∧ clip_url exec_double json_double "u" [(10, 30)] "/out" false "mp4" 1080
      world_double
    = (Raise (Clipper (QualityUnavailableFastPath 1080 [720]
                         [480; 720; 1080])),
       rmtree "/out/youtubeclipper_ab12cd34" w1)
  ∧ (∃ r w2,
       clip_url exec_double json_double "u" [(10, 30)] "/out" true "mp4" 1080
         world_double = (r, rmtree "/out/youtubeclipper_ab12cd34" w2)
       ∧ ∃ later,
           calls w2 =
           [inspect_cmd "u";
            download_cmd "u" "/out/youtubeclipper_ab12cd34"
              "bv*[height=1080]+ba/b[height=1080]" None] ++ later).
Proof.
  intros w1.
  destruct world_double_tools as [Hffmpeg Hytdlp].
  assert (0 < 1080) as Hq by lia.
  assert (_inspect_formats exec_double json_double "u"
            (job_world "/out" world_double) = (Ok inventory_doc, w1))
    as Hinspect by (vm_compute; reflexivity).
  pose proof (clip_url_checks_quality exec_double json_double "u" [(10, 30)]
                "/out" false "mp4" 1080 world_double inventory_doc w1
                Hffmpeg Hytdlp Hq Hinspect) as Hfast.
  pose proof (clip_url_checks_quality exec_double json_double "u" [(10, 30)]
                "/out" true "mp4" 1080 world_double inventory_doc w1
                Hffmpeg Hytdlp Hq Hinspect) as Hslow.
  cbv zeta in Hfast, Hslow.
  destruct Hfast as (_ & Habsent & _ & _ & _ & Hno & Hyes).
  destruct Hslow as (_ & _ & Hpresent & _).
  split; [exact Hq|]. split; [exact Hinspect|].
  split; [exact Hno|]. split; [exact Hyes|].
  split.
  - exact (proj1 (Habsent Hno)).
  - destruct (Hpresent Hyes) as (r & w2 & _ & Hout & later & Hcalls).
    exists r, w2. split; [exact Hout|]. exists later. exact Hcalls.
Defined.

Lemma clip_url_checks_container_witness :
  let w1 :=
    (_inspect_formats exec_double json_double "u"
       (job_world "/out" world_double)).2 in
  let w2 :=
    (_download_source exec_double "u" "/out/youtubeclipper_ab12cd34"
       (_format_selector 720 false).1 (_format_selector 720 false).2 w1).2 in
  0 < 720
  ∧ 720 ∈ comparison_set false inventory_doc
  ∧ _download_source exec_double "u" "/out/youtubeclipper_ab12cd34"
      (_format_selector 720 false).1 (_format_selector 720 false).2 w1
    = (Ok "/out/youtubeclipper_ab12cd34/source.mp4", w2)
  ∧ "mp4" ≠ "mkv"
  ∧ clip_url exec_double json_double "u" [(10, 30)] "/out" false "mkv" 720
      world_double
    = (Raise (Clipper (OutputFormatMismatch "mp4" "mkv")),
       rmtree "/out/youtubeclipper_ab12cd34" w2).
Proof.
  intros w1 w2.
  destruct world_double_tools as [Hffmpeg Hytdlp].
  assert (0 < 720) as Hq by lia.
  assert (_inspect_formats exec_double json_double "u"
            (job_world "/out" world_double) = (Ok inventory_doc, w1))
    as Hinspect by (vm_compute; reflexivity).
  assert (720 ∈ comparison_set false inventory_doc) as Hin
    by (apply (bool_decide_unpack _); by vm_compute).
  assert (_download_source exec_double "u" (job_workdir "/out" world_double)
            (_format_selector 720 false).1 (_format_selector 720 false).2 w1
          = (Ok "/out/youtubeclipper_ab12cd34/source.mp4", w2))
    as Hdl by (vm_compute; reflexivity).
  assert ("mp4" ≠ "mkv") as Hne by discriminate.
  pose proof (clip_url_checks_container exec_double json_double "u" [(10, 30)]
                "/out" false "mkv" 720 world_double inventory_doc w1 _ w2
                Hffmpeg Hytdlp Hq Hinspect Hin Hdl) as H.
  cbv zeta in H. destruct H as (_ & Hmismatch & _).
  split; [exact Hq|]. split; [exact Hin|]. split; [exact Hdl|].
  split; [exact Hne|].
  exact (proj1 (Hmismatch eq_refl Hne)).
Defined.

Lemma clip_url_extracts_in_order_witness :
  let ranges := [(10, 30); (45, 60); (70, 80)] in
  let w1 :=
    (_inspect_formats exec_double json_double "u"
       (job_world "/out" world_double)).2 in
  let w2 :=
    (_download_source exec_double "u" "/out/youtubeclipper_ab12cd34"
       (_format_selector 720 false).1 (_format_selector 720 false).2 w1).2 in
  let outcome := fun rs =>
    clip_url exec_double json_double "u" rs "/out" false "mp4" 720
      world_double in
  0 < 720
  ∧ 720 ∈ comparison_set false inventory_doc
  ∧ _download_source exec_double "u" "/out/youtubeclipper_ab12cd34"
      (_format_selector 720 false).1 (_format_selector 720 false).2 w1
    = (Ok "/out/youtubeclipper_ab12cd34/source.mp4", w2)
  ∧ (outcome ranges).1 = Raise (Clipper ExtractionFailed)
  ∧ "/out/clip_10_30_20240101_120000_000001.mp4"
    ∈ files (sys (outcome ranges).2)
  ∧ ∃ pre r post e,
      ranges = pre ++ r :: post
      ∧ (outcome ranges).1 = Raise (Clipper e)
      ∧ outcome (pre ++ [r]) = outcome ranges.
Proof.
  intros ranges w1 w2 outcome.
  destruct world_double_tools as [Hffmpeg Hytdlp].
  assert (0 < 720) as Hq by lia.
  assert (_inspect_formats exec_double json_double "u"
            (job_world "/out" world_double) = (Ok inventory_doc, w1))
    as Hinspect by (vm_compute; reflexivity).
  assert (720 ∈ comparison_set false inventory_doc) as Hin
    by (apply (bool_decide_unpack _); by vm_compute).
  assert (_download_source exec_double "u" (job_workdir "/out" world_double)
            (_format_selector 720 false).1 (_format_selector 720 false).2 w1
          = (Ok "/out/youtubeclipper_ab12cd34/source.mp4", w2))
    as Hdl by (vm_compute; reflexivity).
  assert ((outcome ranges).1 = Raise (Clipper ExtractionFailed)) as Hfails
    by (vm_compute; reflexivity).
  assert ("/out/clip_10_30_20240101_120000_000001.mp4"
          ∈ files (sys (outcome ranges).2)) as Hkept
    by (apply (bool_decide_unpack _); by vm_compute).
  pose proof (clip_url_extracts_in_order exec_double json_double "u" ranges
                "/out" false "mp4" 720 world_double inventory_doc w1 _ w2
                Hffmpeg Hytdlp Hq Hinspect Hin Hdl (or_intror eq_refl)) as H.
  cbv beta zeta in H. destruct H as (_ & H).
  split; [exact Hq|]. split; [exact Hin|]. split; [exact Hdl|].
  split; [exact Hfails|]. split; [exact Hkept|].
  destruct H as [(w3 & _ & Hok & _)
                | (pre & r & post & e & wk & w3 & Hsplit & _ & _ & _ & _
                   & Hout & Hsame & _)].
  - exfalso.
    pose proof (eq_trans (eq_sym (f_equal fst Hok)) Hfails) as Hbad.
    cbn [fst] in Hbad. discriminate Hbad.
  - exists pre, r, post, e. split; [exact Hsplit|].
    split; [exact (f_equal fst Hout) | exact Hsame].
Defined.

(** * Further properties of the range parser *)

Lemma parse_time_errors s e :
  parse_time s = Raise e →
  e = Clipper InvalidTimestamp ∨ e = Clipper NegativeTimestamp.
Proof.
  rewrite parse_time_int. destruct (Py.int s) as [n|].
  - destruct (n <? 0); [|done]. intros [= <-]. by right.
  - intros [= <-]. by left.
Qed.

Lemma int_blank s : all_chars Py.isspace s = true → Py.int s = None.
Proof. intros H%strip_empty_iff. unfold Py.int. by rewrite H. Qed.

(** X1: [parse_time] never returns a negative number, and what it returns
    parses back to itself once printed; it fails with [InvalidTimestamp] or
    [NegativeTimestamp] and nothing else; an empty or blank text is an
    [InvalidTimestamp]. *)
Theorem parse_time_range_and_errors :
  (∀ s n, parse_time s = Ok n → 0 ≤ n ∧ parse_time (Py.str n) = Ok n)
  ∧ (∀ s e, parse_time s = Raise e →
            e = Clipper InvalidTimestamp ∨ e = Clipper NegativeTimestamp)
  ∧ (∀ s, all_chars Py.isspace s = true →
          parse_time s = Raise (Clipper InvalidTimestamp)).
Proof.
  repeat apply conj.
  - intros s n [_ Hn]%parse_time_ok_inv. split; [done|].
    by apply parse_time_str.
  - apply parse_time_errors.
  - intros s Hs. by rewrite parse_time_int, int_blank.
Qed.

Lemma parse_time_range_and_errors_witness :
  parse_time " 0042 " = Ok 42
  ∧ (0 ≤ 42 ∧ parse_time (Py.str 42) = Ok 42)
  ∧ all_chars Py.isspace "  " = true
  ∧ parse_time "  " = Raise (Clipper InvalidTimestamp).
Proof.
  destruct parse_time_range_and_errors as (Hok & _ & Hblank).
  split; [reflexivity|]. split; [exact (Hok " 0042 " 42 eq_refl)|].
  split; [reflexivity|]. exact (Hblank "  " eq_refl).
Defined.

(** *** The syntax [int] accepts *)

(** A run of digits, read from any state, leaves the reader after a digit. *)
Lemma int_digits_run s :
  s ≠ "" → all_chars is_digit s = true →
  ∀ b acc, ∃ v, (0 ≤ acc → 0 ≤ v)
                ∧ ∀ r, Py.int_digits b acc (s +:+ r) = Py.int_digits true v r.
Proof.
  induction s as [|c s IH]; [done|].
  intros _ H b acc. cbn [all_chars] in H. apply andb_true_iff in H as [Hc Hs].
  unfold is_digit in Hc. destruct (Py.digit_value c) as [d|] eqn:Hd; [|done].
  assert (0 ≤ d) as Hd0.
  { revert Hd. unfold Py.digit_value. destruct (_ && _)%N eqn:E; [|done].
    apply andb_true_iff in E as [E1%N.leb_le _]. intros [= <-]. lia. }
  destruct s as [|c' s].
  - exists (10 * acc + d). split; [lia|]. intros r.
    rewrite append_cons, append_nil_l. cbn [Py.int_digits]. by rewrite Hd.
  - destruct (IH ltac:(done) Hs true (10 * acc + d)) as (v & Hv0 & Hrun).
    exists v. split; [lia|]. intros r.
    rewrite append_cons. cbn [Py.int_digits]. rewrite Hd. apply Hrun.
Qed.

Lemma digits_nonspace s :
  all_chars is_digit s = true → all_chars nonspace s = true.
Proof.
  apply all_chars_impl. intros c Hc. unfold nonspace. by rewrite digit_nonspace.
Qed.

(** [int] on a text that is stripped already and starts with a digit. *)
Lemma int_digit_head c r :
  is_digit c = true → all_chars nonspace (String c r) = true →
  Py.int (String c r) = Py.int_digits true 0 (String c r).
Proof.
  intros Hc Hns. rewrite int_cons by by apply strip_nonspace.
  rewrite (digit_not_minus c Hc), (digit_not_plus c Hc).
  by apply int_digits_flag.
Qed.

(** X2: [parse_time] reads what [int] reads: a plus sign before the number,
    zeros before its digits, and an underscore between two runs of digits
    change nothing to the value. *)
Theorem parse_time_lenient :
  (∀ n, 0 ≤ n → parse_time (String "+" (Py.str n)) = Ok n)
  ∧ (∀ s, s ≠ "" → all_chars is_digit s = true →
          ∃ n, parse_time s = Ok n ∧ parse_time (String "0" s) = Ok n)
  ∧ (∀ s t, s ≠ "" → t ≠ "" →
            all_chars is_digit s = true → all_chars is_digit t = true →
            parse_time (s +:+ String "_" t) = parse_time (s +:+ t)).
Proof.
  repeat apply conj.
  - intros n Hn. rewrite parse_time_int, int_cons.
    + cbn [Ascii.eqb Bool.eqb]. 
      assert (Py.int_digits false 0 (Py.str n) = Some n) as ->.
      { destruct n as [|p|p]; [done | apply int_digits_str_pos | lia]. }
      by destruct (Z.ltb_spec n 0); [lia|].
    + apply strip_nonspace. cbn [all_chars].
      by rewrite (digits_nonspace _ (str_digits n Hn)).
  - intros s Hne Hs.
    destruct (int_digits_run s Hne Hs true 0) as (v & Hv0 & Hrun).
    specialize (Hv0 (Z.le_refl 0)).
    exists v. rewrite !parse_time_int.
    assert (Py.int_digits true 0 s = Some v) as Hval.
    { rewrite <- (append_nil_r s). by rewrite Hrun. }
    destruct s as [|c r]; [done|].
    pose proof Hs as [Hc _]%andb_true_iff.
    rewrite int_digit_head, Hval by (done || by apply digits_nonspace).
    rewrite (int_digit_head "0");
      [|done|apply digits_nonspace; cbn [all_chars] in *; by rewrite Hs].
    change (Py.int_digits true 0 (String "0" (String c r)))
      with (Py.int_digits true 0 (String c r)).
    rewrite Hval. by destruct (Z.ltb_spec v 0); [lia|].
  - intros s t Hs0 Ht0 Hs Ht.
    assert (all_chars nonspace (s +:+ String "_" t) = true) as Hns1.
    { rewrite all_chars_app. cbn [all_chars].
      by rewrite !digits_nonspace. }
    assert (all_chars nonspace (s +:+ t) = true) as Hns2.
    { rewrite all_chars_app. by rewrite !digits_nonspace. }
    rewrite !parse_time_int.
    assert (Py.int (s +:+ String "_" t) = Py.int (s +:+ t)) as ->; [|done].
    destruct (int_digits_run s Hs0 Hs true 0) as (v & _ & Hrun).
    destruct s as [|c r]; [done|].
    pose proof Hs as [Hc _]%andb_true_iff.
    rewrite (append_cons c r (String "_" t)) in Hns1 |- *.
    rewrite (append_cons c r t) in Hns2 |- *.
    rewrite (int_digit_head c (r +:+ String "_" t)) by done.
    rewrite (int_digit_head c (r +:+ t)) by done.
    rewrite <- !append_cons, !Hrun.
    destruct t as [|c' t]; [done|].
    pose proof Ht as [Hc' _]%andb_true_iff.
    change (Py.int_digits true v (String "_" (String c' t)))
      with (Py.int_digits false v (String c' t)).
    by apply int_digits_flag.
Qed.

Lemma parse_time_lenient_witness :
  (0 ≤ 7 ∧ parse_time "+7" = Ok 7)
  ∧ (all_chars is_digit "12" = true
     ∧ ∃ n, parse_time "12" = Ok n ∧ parse_time "012" = Ok n)
  ∧ (all_chars is_digit "1" = true ∧ all_chars is_digit "000" = true
     ∧ parse_time "1_000" = parse_time "1000").
Proof.
  destruct parse_time_lenient as (Hplus & Hzero & Hunder).
  split; [split; [lia | apply (Hplus 7); lia]|].
  split; [split; [reflexivity | by apply (Hzero "12")]|].
  split; [reflexivity|]. split; [reflexivity|].
  by apply (Hunder "1" "000").
Defined.

(** *** Ranges *)

Lemma parses_to_valid items rs :
  parses_to items rs → Forall (fun r : ClipRange => 0 ≤ r.1 < r.2) rs.
Proof.
  induction 1 as [|item r items rs Hr _ IH]; constructor; [|done].
  by destruct (parse_item_ok_inv _ _ Hr) as (_ & _ & _ & _ & _ & _ & ?).
Qed.

Lemma parse_clip_ranges_ok_inv ranges rs :
  parse_clip_ranges ranges = Ok rs →
  range_items ranges ≠ [] ∧ parses_to (range_items ranges) rs.
Proof.
  rewrite parse_clip_ranges_unfold. case_bool_decide as Hitems; [done|].
  by intros (rs' & -> & H)%parse_items_ok_inv.
Qed.

(** X3: the ranges that [parse_clip_ranges] returns are never an empty
    list, there is one per segment that is not blank, each has
    [0 <= start < end], and printing them back as [a-b,c-d,...] gives a text
    that parses to the same list. *)
Theorem parse_clip_ranges_valid_output :
  ∀ ranges rs,
    parse_clip_ranges ranges = Ok rs →
    rs ≠ []
    ∧ length rs = length (range_items ranges)
    ∧ Forall (fun r : ClipRange => 0 ≤ r.1 < r.2) rs
    ∧ parse_clip_ranges (Py.join "," (range_text <$> rs)) = Ok rs.
Proof.
  intros ranges rs [Hne Hrs]%parse_clip_ranges_ok_inv.
  pose proof (parses_to_valid _ _ Hrs) as Hvalid.
  assert (rs ≠ []) as Hrs_ne.
  { intros ->. apply Forall2_nil_inv_r in Hrs. done. }
  repeat split; [done | | done | by apply parse_clip_ranges_join].
  symmetry. by eapply Forall2_length.
Qed.

Lemma parse_clip_ranges_valid_output_witness :
  parse_clip_ranges " 7 - 9 ,, +1-2" = Ok [(7, 9); (1, 2)]
  ∧ parse_clip_ranges (Py.join "," (range_text <$> [(7, 9); (1, 2)]))
    = Ok [(7, 9); (1, 2)].
Proof.
  split; [reflexivity|].
  by destruct (parse_clip_ranges_valid_output " 7 - 9 ,, +1-2"
                 [(7, 9); (1, 2)] eq_refl) as (_ & _ & _ & H).
Defined.

(** *** Commas *)

Lemma split_nonempty sep s : Py.split sep s ≠ [].
Proof.
  destruct s as [|c r]; [done|]. simpl.
  destruct (Ascii.eqb c sep); [done|]. by destruct (Py.split sep r).
Qed.

Lemma split_app sep s t :
  Py.split sep (s +:+ String sep t) = Py.split sep s ++ Py.split sep t.
Proof.
  induction s as [|c r IH].
  - rewrite append_nil_l. simpl. by rewrite Ascii.eqb_refl.
  - rewrite append_cons. cbn [Py.split].
    destruct (Ascii.eqb c sep); [by rewrite IH|].
    rewrite IH. pose proof (split_nonempty sep r).
    by destruct (Py.split sep r).
Qed.

Lemma omap_app_list {A B} (f : A → option B) (l1 l2 : list A) :
  omap f (l1 ++ l2) = omap f l1 ++ omap f l2.
Proof.
  induction l1 as [|x l1 IH]; [done|].
  cbn [app omap list_omap]. rewrite IH. by destruct (f x).
Qed.

Lemma range_items_app a b :
  range_items (a +:+ String "," b) = range_items a ++ range_items b.
Proof. unfold range_items. by rewrite split_app, omap_app_list. Qed.

Lemma parse_items_app l1 l2 parsed :
  parse_items (l1 ++ l2) parsed =
  (let? r := parse_items l1 parsed in parse_items l2 r).
Proof.
  revert parsed. induction l1 as [|item l1 IH]; intros parsed; [done|].
  cbn [app parse_items]. destruct (parse_item item) as [r|e]; [|done].
  apply IH.
Qed.

(** X4: commas compose: the segments of [a,b] are those of [a] followed by
    those of [b]; if both texts parse, [a,b] parses to the ranges of [a]
    followed by those of [b]; a blank text on either side of the comma
    changes nothing; and if [a] holds a segment and fails, [a,b] fails with
    the same error whatever [b] is. *)
Theorem parse_clip_ranges_comma :
  (∀ a b, range_items (a +:+ String "," b) = range_items a ++ range_items b)
  ∧ (∀ a b ra rb,
       parse_clip_ranges a = Ok ra → parse_clip_ranges b = Ok rb →
       parse_clip_ranges (a +:+ String "," b) = Ok (ra ++ rb))
  ∧ (∀ a b, all_chars Py.isspace b = true →
            parse_clip_ranges (a +:+ String "," b) = parse_clip_ranges a
            ∧ parse_clip_ranges (b +:+ String "," a) = parse_clip_ranges a)
  ∧ (∀ a b e,
       range_items a ≠ [] → parse_clip_ranges a = Raise e →
       parse_clip_ranges (a +:+ String "," b) = Raise e).
Proof.
  repeat apply conj.
  - apply range_items_app.
  - intros a b ra rb [Ha Hra]%parse_clip_ranges_ok_inv
      [Hb Hrb]%parse_clip_ranges_ok_inv.
    rewrite parse_clip_ranges_unfold, range_items_app.
    rewrite bool_decide_false by by destruct (range_items a).
    rewrite parse_items_app, (parse_items_ok _ _ [] Hra). simpl.
    by rewrite (parse_items_ok _ _ ra Hrb).
  - intros a b Hb.
    assert (range_items b = []) as Hnil.
    { apply range_items_empty_iff.
      assert (Py.contains "," b = false) as Hcomma.
      { by apply (contains_all_chars Py.isspace). }
      rewrite split_nosep by done. by constructor. }
    rewrite !parse_clip_ranges_unfold, !range_items_app, Hnil.
    by rewrite app_nil_r.
  - intros a b e Ha. rewrite !parse_clip_ranges_unfold, range_items_app.
    rewrite !bool_decide_false by by destruct (range_items a).
    rewrite parse_items_app. by intros ->.
Qed.

Lemma parse_clip_ranges_comma_witness :
  parse_clip_ranges "1-2" = Ok [(1, 2)]
  ∧ parse_clip_ranges "5-9, 3-4" = Ok [(5, 9); (3, 4)]
  ∧ parse_clip_ranges "1-2,5-9, 3-4" = Ok [(1, 2); (5, 9); (3, 4)]
  ∧ all_chars Py.isspace " " = true
  ∧ parse_clip_ranges "1-2, " = parse_clip_ranges "1-2"
  ∧ range_items "4-x" ≠ []
  ∧ parse_clip_ranges "4-x,1-2" = Raise (Clipper InvalidTimestamp).
Proof.
  destruct parse_clip_ranges_comma as (_ & Hboth & Hblank & Hfail).
  split; [reflexivity|]. split; [reflexivity|].
  split; [exact (Hboth "1-2" "5-9, 3-4" _ _ eq_refl eq_refl)|].
  split; [reflexivity|].
  split; [exact (proj1 (Hblank "1-2" " " eq_refl))|].
  assert (range_items "4-x" ≠ []) as Hne by discriminate.
  split; [exact Hne|].
  exact (Hfail "4-x" "1-2" _ Hne eq_refl).
Defined.

(** *** Whitespace *)

Lemma parse_time_pad pre s post :
  all_chars Py.isspace pre = true → all_chars Py.isspace post = true →
  parse_time (pre +:+ s +:+ post) = parse_time s.
Proof.
  intros Hpre Hpost.
  by rewrite <- parse_time_strip, strip_pad, parse_time_strip.
Qed.

Lemma rstrip_app_nonspace s t :
  t ≠ "" → all_chars nonspace t = true → Py.rstrip (s +:+ t) = s +:+ t.
Proof.
  intros Hne Ht. induction s as [|c r IH].
  - rewrite append_nil_l. by apply rstrip_nonspace.
  - rewrite append_cons, rstrip_cons, IH.
    assert (String.eqb (r +:+ t) "" = false) as ->; [|by rewrite andb_false_r].
    apply String.eqb_neq. destruct r; [by rewrite append_nil_l | done].
Qed.

Lemma space_not_char (x : ascii) p :
  Py.isspace x = false → all_chars Py.isspace p = true →
  Py.contains x p = false.
Proof. intros Hx. by apply (contains_all_chars Py.isspace). Qed.

(** X5: whitespace around a segment and around each of its two numbers is
    ignored: with [0 <= a < b], the text [a-b] padded at these four places
    parses to [[(a, b)]]. *)
Theorem parse_clip_ranges_padding :
  ∀ a b p1 p2 p3 p4,
    0 ≤ a < b →
    all_chars Py.isspace p1 = true → all_chars Py.isspace p2 = true →
    all_chars Py.isspace p3 = true → all_chars Py.isspace p4 = true →
    parse_clip_ranges
      (p1 +:+ Py.str a +:+ p2 +:+ "-" +:+ p3 +:+ Py.str b +:+ p4)
    = Ok [(a, b)].
Proof.
  intros a b p1 p2 p3 p4 Hab H1 H2 H3 H4.
  set (X := (Py.str a +:+ p2) +:+ String "-" (p3 +:+ Py.str b)).
  assert (p1 +:+ Py.str a +:+ p2 +:+ "-" +:+ p3 +:+ Py.str b +:+ p4
          = p1 +:+ X +:+ p4) as ->.
  { unfold X.
    by rewrite !append_assoc, (append_cons "-" (p3 +:+ Py.str b) p4),
      append_assoc. }
  assert (0 ≤ a) as Ha by lia. assert (0 ≤ b) as Hb by lia.
  pose proof (str_digits a Ha) as Hda. pose proof (str_digits b Hb) as Hdb.
  pose proof (str_nonempty a) as Hna. pose proof (str_nonempty b) as Hnb.
  assert (X ≠ "") as HX.
  { unfold X. destruct (Py.str a); [done|]. by rewrite !append_cons. }
  assert (Py.strip X = X) as HstripX.
  { unfold Py.strip.
    assert (Py.lstrip X = X) as ->.
    { unfold X. destruct (Py.str a) as [|c r]; [done|].
      pose proof Hda as [Hc _]%andb_true_iff.
      rewrite !append_cons. simpl. by rewrite (digit_nonspace c Hc). }
    assert (X = ((Py.str a +:+ p2) +:+ String "-" p3) +:+ Py.str b) as ->.
    { unfold X. by rewrite !append_assoc, !append_cons. }
    apply rstrip_app_nonspace; [done | by apply digits_nonspace]. }
  assert (range_items (p1 +:+ X +:+ p4) = [X]) as Hitems.
  { unfold range_items. rewrite split_nosep.
    - cbn [omap list_omap]. rewrite strip_pad, HstripX by done.
      by destruct X.
    - unfold X. rewrite !contains_app. cbn [Py.contains].
      rewrite !contains_app.
      rewrite !(str_no_char ",") by done.
      by rewrite !(space_not_char ",") by done. }
  rewrite parse_clip_ranges_unfold, Hitems, bool_decide_false by done.
  cbn [parse_items]. unfold X. rewrite parse_item_cut.
  - assert (parse_time (Py.str a +:+ p2) = Ok a) as ->.
    { rewrite <- (append_nil_l (Py.str a +:+ p2)), parse_time_pad by done.
      by apply parse_time_str. }
    assert (parse_time (p3 +:+ Py.str b) = Ok b) as ->.
    { rewrite <- (append_nil_r (Py.str b)), parse_time_pad by done.
      by apply parse_time_str. }
    unfold _validate_range. simpl. by destruct (Z.leb_spec b a); [lia|].
  - rewrite contains_app, (str_no_char "-") by done.
    by rewrite (space_not_char "-").
Qed.

Lemma parse_clip_ranges_padding_witness :
  0 ≤ 10 < 30
  ∧ all_chars Py.isspace " " = true ∧ all_chars Py.isspace "" = true
  ∧ parse_clip_ranges " 10 - 30" = Ok [(10, 30)].
Proof.
  split; [lia|]. split; [reflexivity|]. split; [reflexivity|].
  apply (parse_clip_ranges_padding 10 30 " " " " " " "");
    [lia | reflexivity..].
Defined.

(** * Further properties of the classification *)

Lemma elem_of_classify_all data h :
  h ∈ (classify_heights data).2
  ↔ ∃ fmt, fmt ∈ default [] (formats data) ∧ video_height fmt h.
Proof.
  rewrite classify_heights_eq. cbn [snd].
  rewrite elem_of_sorted, heights_fold_all. cbn [snd].
  split; [intros [[]%elem_of_empty|?]; done | by right].
Qed.

Lemma elem_of_classify_fast data h :
  h ∈ (classify_heights data).1
  ↔ ∃ fmt, fmt ∈ default [] (formats data) ∧ fast_path_height fmt h.
Proof.
  rewrite classify_heights_eq. cbn [fst].
  rewrite elem_of_sorted, heights_fold_fast. cbn [fst].
  split; [intros [[]%elem_of_empty|?]; done | by right].
Qed.

(** X6: every fast-path height is an any-codec height, so a height that the
    fast path accepts is accepted when re-encoding; zero is never listed;
    and the two lists depend on which formats the document holds, not on
    their order or on how often one is repeated. *)
Theorem classify_heights_invariants :
  (∀ data h, h ∈ (classify_heights data).1 → h ∈ (classify_heights data).2)
  ∧ (∀ data q, q ∈ comparison_set false data → q ∈ comparison_set true data)
  ∧ (∀ data, 0 ∉ (classify_heights data).2)
  ∧ (∀ d d',
       (∀ fmt, fmt ∈ default [] (formats d) ↔ fmt ∈ default [] (formats d')) →
       classify_heights d = classify_heights d').
Proof.
  assert (∀ data h, h ∈ (classify_heights data).1 →
                    h ∈ (classify_heights data).2) as Hsub.
  { intros data h (fmt & Hfmt & Hv & _)%elem_of_classify_fast.
    apply elem_of_classify_all. eauto. }
  repeat apply conj.
  - exact Hsub.
  - intros data q. apply Hsub.
  - intros data (fmt & _ & _ & Hz & _)%elem_of_classify_all. done.
  - intros d d' Hsame. rewrite !classify_heights_eq. f_equal; f_equal.
    + apply set_eq. intros h. rewrite !heights_fold_fast.
      by setoid_rewrite Hsame.
    + apply set_eq. intros h. rewrite !heights_fold_all.
      by setoid_rewrite Hsame.
Qed.

Lemma classify_heights_invariants_witness :
  720 ∈ comparison_set false inventory_doc
  ∧ 720 ∈ comparison_set true inventory_doc.
Proof.
  assert (720 ∈ comparison_set false inventory_doc) as H
    by (apply (bool_decide_unpack _); by vm_compute).
  split; [exact H|].
  by apply (proj1 (proj2 classify_heights_invariants) inventory_doc 720).
Defined.

(** * Further properties of the names *)

Lemma str_inj a b : Py.str a = Py.str b → a = b.
Proof.
  intros H. pose proof (int_str a) as Ha. rewrite H, int_str in Ha.
  by injection Ha.
Qed.

Lemma str_no_underscore n : Py.contains "_" (Py.str n) = false.
Proof.
  destruct n as [|p|p]; [done | by apply str_no_char |].
  rewrite str_neg. cbn [Py.contains]. by rewrite (str_no_char "_").
Qed.

Lemma str_no_bracket n : Py.contains "]" (Py.str n) = false.
Proof.
  destruct n as [|p|p]; [done | by apply str_no_char |].
  rewrite str_neg. cbn [Py.contains]. by rewrite (str_no_char "]").
Qed.

(** Two texts cut at the first separator are equal part by part. *)
Lemma app_sep_inj sep x x' y y' :
  Py.contains sep x = false → Py.contains sep x' = false →
  x +:+ String sep y = x' +:+ String sep y' → x = x' ∧ y = y'.
Proof.
  revert x'. induction x as [|c x IH]; intros [|c' x'] Hx Hx'.
  - rewrite !append_nil_l. by intros [= ->].
  - rewrite append_nil_l, append_cons. intros [= <- _].
    cbn [Py.contains] in Hx'. by rewrite Ascii.eqb_refl in Hx'.
  - rewrite append_nil_l, append_cons. intros [= -> _].
    cbn [Py.contains] in Hx. by rewrite Ascii.eqb_refl in Hx.
  - rewrite !append_cons. intros [= -> H].
    cbn [Py.contains] in Hx, Hx'.
    apply orb_false_iff in Hx as [_ Hx]. apply orb_false_iff in Hx' as [_ Hx'].
    destruct (IH x' Hx Hx' H) as [-> ->]. done.
Qed.

(** X7: within a job, two ranges share an artifact path only if they are the
    same range; and two requests share a format selector only if they have
    the same height and the same mode. *)
Theorem names_are_injective :
  (∀ outdir run_stamp output_format r r',
     clip_path outdir run_stamp output_format r
     = clip_path outdir run_stamp output_format r' → r = r')
  ∧ (∀ h h' reencode reencode',
       _format_selector h reencode = _format_selector h' reencode' →
       h = h' ∧ reencode = reencode').
Proof.
  split.
  - intros outdir run_stamp output_format [a b] [a' b'].
    unfold clip_path, path_join. cbn [fst snd].
    intros H%(inj (String.app outdir)). injection H as H.
    apply app_sep_inj in H as [Ha%str_inj H]; [|apply str_no_underscore..].
    apply app_sep_inj in H as [Hb%str_inj _]; [|apply str_no_underscore..].
    by subst.
  - intros h h' reencode reencode'. unfold _format_selector.
    destruct reencode, reencode'; intros [= H]; split; try done.
    + by apply app_sep_inj in H as [?%str_inj _]; [|apply str_no_bracket..].
    + by apply app_sep_inj in H as [?%str_inj _]; [|apply str_no_bracket..].
Qed.

Lemma names_are_injective_witness :
  clip_path "/out" "s" "mp4" (10, 30) = "/out/clip_10_30_s.mp4"
  ∧ ((10, 30) : ClipRange) = (10, 30).
Proof.
  split; [reflexivity|].
  exact (proj1 names_are_injective "/out" "s" "mp4" (10, 30) (10, 30) eq_refl).
Defined.

(** * Further properties of the orchestrator *)

Section Outcomes.

Variable exec : Cmd → Sys → Z * string * Sys.
Variable json_loads : string → option Metadata.

Lemma ensure_dependencies_cases w :
  let missing :=
    filter (fun name => name ∉ executables (sys w)) ["ffmpeg"; "yt-dlp"] in
  (missing = [] ∧ _ensure_dependencies w = (Ok tt, w)
   ∧ "ffmpeg" ∈ executables (sys w) ∧ "yt-dlp" ∈ executables (sys w))
  ∨ (missing ≠ []
     ∧ _ensure_dependencies w
       = (Raise (Clipper (MissingDependency missing)), w)).
Proof.
  intros missing. unfold _ensure_dependencies. fold missing.
  destruct missing as [|x l] eqn:E; [left | by right].
  split; [done|]. split; [done|].
  unfold missing in E. rewrite !filter_cons, filter_nil in E.
  destruct (decide ("ffmpeg" ∉ executables (sys w))) as [|H1%dec_stable];
    [done|].
  destruct (decide ("yt-dlp" ∉ executables (sys w))) as [|H2%dec_stable];
    [done|].
  done.
Qed.

(** X8: [clip_url] checks the two engines first and the height second; when
    either check fails it raises, [MissingDependency] with exactly the
    engines that are not found, each named in the message, or
    [InvalidQuality], and leaves the world as it was: no directory is
    created and no process is started. *)
Theorem clip_url_preconditions :
  ∀ url ranges outdir reencode output_format quality_height w,
    let missing :=
      filter (fun name => name ∉ executables (sys w)) ["ffmpeg"; "yt-dlp"] in
    let outcome :=
      clip_url exec json_loads url ranges outdir reencode output_format
        quality_height w in
    (∀ name, name ∈ missing ↔
             (name = "ffmpeg" ∨ name = "yt-dlp")
             ∧ name ∉ executables (sys w))
    ∧ (missing ≠ [] →
         outcome = (Raise (Clipper (MissingDependency missing)), w)
         ∧ ∀ name, name ∈ missing →
                   occurs_in name (message (MissingDependency missing)))
    ∧ (missing = [] → quality_height ≤ 0 →
         outcome = (Raise (Clipper InvalidQuality), w)).
Proof.
  intros url ranges outdir reencode output_format quality_height w
    missing outcome.
  repeat apply conj.
  - intros name. unfold missing.
    rewrite list_elem_of_filter, !elem_of_cons, elem_of_nil. tauto.
  - intros Hne.
    destruct (ensure_dependencies_cases w) as [[Hnil _] | [_ Hdeps]]; [done|].
    split.
    + unfold outcome, clip_url, bind. by rewrite Hdeps.
    + intros name Hname. cbn [message].
      by apply occurs_in_app_l, occurs_in_app_r, occurs_in_join.
  - intros Hnil Hq.
    destruct (ensure_dependencies_cases w) as [(_ & Hdeps & _) | [Hne _]];
      [|done].
    unfold outcome, clip_url, bind. rewrite Hdeps.
    by destruct (Z.leb_spec quality_height 0); [|lia].
Qed.

(** *** The metadata query *)


Lemma clip_job_inspect_fails url ranges outdir reencode output_format
    quality_height workdir w e w1 :
  _inspect_formats exec json_loads url w = (Raise e, w1) →
  clip_job exec json_loads url ranges outdir reencode output_format
    quality_height workdir w = (Raise e, w1).
Proof.
  intros H. unfold clip_job, bind, _available_heights, bind. by rewrite H.
Qed.


(** *** The download *)




(** *** Every outcome of a job *)

Lemma download_source_errors url workdir selector merge w e w' :
  _download_source exec url workdir selector merge w = (Raise e, w') →
  e = Clipper DownloadFailed ∨ e = Clipper NoSourceFileProduced.
Proof.
  unfold _download_source, bind, _run_command, subprocess_run.
  destruct (exec _ (sys w)) as [[code out] s'].
  destruct (code =? 0); [|intros [= <- _]; by left].
  destruct (glob_source workdir _); [|done]. intros [= <- _]. by right.
Qed.

(** What the loop returns, raises and starts. *)
Lemma extract_ranges_outcome source outdir run_stamp output_format reencode
    ranges w r w' :
  extract_ranges exec source outdir run_stamp output_format reencode
    ranges [] w = (r, w') →
  let cmd := fun x : ClipRange =>
    ffmpeg_cmd source x.1 x.2 (clip_path outdir run_stamp output_format x)
      reencode in
  (∃ t, calls w' = calls w ++ t ∧ t `prefix_of` (cmd <$> ranges))
  ∧ (∀ e, r = Raise e → ∃ e', e = Clipper e' ∧ is_job_error e' = true)
  ∧ (∀ outs, r = Ok outs →
       outs = (clip_path outdir run_stamp output_format <$> ranges)
       ∧ extracted exec source outdir run_stamp output_format reencode
           ranges w w'
       ∧ calls w' = calls w ++ (cmd <$> ranges)).
Proof.
  intros Hrun cmd.
  destruct (extract_ranges_cases exec source outdir run_stamp output_format
              reencode ranges [] w)
    as [(w1 & Hrs & Heq)
       | (pre & x & post & e & wk & w1 & -> & Hpre & Hx & Heq)];
    rewrite Heq in Hrun; injection Hrun as <- <-.
  - pose proof (extracted_calls _ _ _ _ _ _ _ _ _ Hrs) as Hcalls.
    repeat apply conj; [by eexists | done | by intros ? [= <-]].
  - pose proof (extracted_calls _ _ _ _ _ _ _ _ _ Hpre) as Hcalls.
    repeat apply conj; [| |done].
    + destruct (run_ffmpeg_raise_inv _ _ _ _ _ _ _ _ _ Hx)
        as [[_ ->] | [_ Hc]].
      * eexists. split; [done|]. rewrite fmap_app. by apply prefix_app_r.
      * exists ((cmd <$> pre) ++ [cmd x]).
        split; [by rewrite Hc, Hcalls, <- app_assoc|].
        rewrite fmap_app, fmap_cons. apply prefix_app, prefix_cons, prefix_nil.
    + intros e0 [= <-].
      destruct (run_ffmpeg_raise_inv _ _ _ _ _ _ _ _ _ Hx)
        as [[-> _] | [-> _]]; by eexists.
Qed.

(** The same for the body of the [with] block. *)
Lemma clip_job_outcome url ranges outdir reencode output_format
    quality_height workdir w r wj :
  clip_job exec json_loads url ranges outdir reencode output_format
    quality_height workdir w = (r, wj) →
  let download :=
    download_cmd url workdir (_format_selector quality_height reencode).1
      (_format_selector quality_height reencode).2 in
  ∃ source,
    let cmd := fun x : ClipRange =>
      ffmpeg_cmd source x.1 x.2
        (clip_path outdir (now (sys w)) output_format x) reencode in
    (∃ t, calls wj = calls w ++ t
          ∧ t `prefix_of` (inspect_cmd url :: download :: (cmd <$> ranges)))
    ∧ (∀ e, r = Raise e → ∃ e', e = Clipper e' ∧ is_job_error e' = true)
    ∧ (∀ outs, r = Ok outs →
         outs = (clip_path outdir (now (sys w)) output_format <$> ranges)
         ∧ calls wj
           = calls w ++ inspect_cmd url :: download :: (cmd <$> ranges)
         ∧ ∃ w2, extracted exec source outdir (now (sys w)) output_format
                   reencode ranges w2 wj).
Proof.
  intros Hjob download.
  destruct (_inspect_formats exec json_loads url w) as [[data|e] w1]
    eqn:Hinspect.
  2: { rewrite (clip_job_inspect_fails _ _ _ _ _ _ _ _ _ _ Hinspect) in Hjob.
       injection Hjob as <- <-. exists "".
       pose proof (inspect_formats_calls _ _ _ _ _ _ Hinspect) as Hcalls.
       repeat apply conj; [| |done].
       - eexists. split; [done|]. apply prefix_cons, prefix_nil.
       - intros e0 [= <-]. revert Hinspect.
         unfold _inspect_formats, subprocess_run.
         destruct (exec _ _) as [[code out] s'].
         destruct (code =? 0); [destruct (json_loads out)|];
           intros [= <- _]; by eexists. }
  pose proof (inspect_formats_calls _ _ _ _ _ _ Hinspect) as Hcalls.
  rewrite (clip_job_after_inspect _ _ _ _ _ _ _ _ _ _ _ _ Hinspect) in Hjob.
  cbn zeta in Hjob. case_bool_decide as Hq.
  2: { exists "". repeat apply conj.
       - exists [inspect_cmd url].
         split; [|apply prefix_cons, prefix_nil].
         by destruct reencode; injection Hjob as <- <-.
       - intros e0 ->.
         destruct reencode; injection Hjob as <- <-; by eexists.
       - intros outs ->. by destruct reencode. }
  destruct (_download_source exec url workdir
              (_format_selector quality_height reencode).1
              (_format_selector quality_height reencode).2 w1)
    as [[source|e] w2] eqn:Hdl.
  2: { pose proof (download_source_calls _ _ _ _ _ _ _ _ Hdl) as Hcalls2.
       revert Hjob. unfold download_and_extract, bind.
       destruct (_format_selector quality_height reencode) as [sel merge].
       cbn [fst snd] in Hdl. rewrite Hdl. intros [= <- <-].
       exists "". repeat apply conj; [| |done].
       - exists [inspect_cmd url; download].
         split; [by rewrite Hcalls2, Hcalls, <- app_assoc|].
         apply prefix_cons, prefix_cons, prefix_nil.
       - intros e0 [= <-].
         destruct (download_source_errors _ _ _ _ _ _ _ Hdl) as [->| ->];
           by eexists. }
  destruct (download_and_extract_after_download exec url ranges outdir
              reencode output_format quality_height workdir (now (sys w))
              _ _ _ Hdl)
    as [Hcalls2 Heq].
  rewrite Heq in Hjob. clear Heq. fold download in Hcalls2.
  exists source. intros cmd.
  destruct (negb reencode && _).
  { injection Hjob as <- <-. repeat apply conj; [| |done].
    - exists [inspect_cmd url; download].
      split; [by rewrite Hcalls2, Hcalls, <- app_assoc|].
      apply prefix_cons, prefix_cons, prefix_nil.
    - intros e0 [= <-]. by eexists. }
  destruct (extract_ranges_outcome _ _ _ _ _ _ _ _ _ Hjob)
    as ((t & Ht & Hprefix) & Herr & Hok).
  repeat apply conj.
  - exists (inspect_cmd url :: download :: t).
    split; [by rewrite Ht, Hcalls2, Hcalls, <- !app_assoc|].
    by apply prefix_cons, prefix_cons.
  - exact Herr.
  - intros outs Houts. destruct (Hok outs Houts) as (-> & Hext & Hc).
    split; [done|]. split; [|by exists w2].
    by rewrite Hc, Hcalls2, Hcalls, <- !app_assoc.
Qed.

(** [clip_url] in terms of [clip_job], whatever the arguments. *)
Lemma clip_url_cases url ranges outdir reencode output_format
    quality_height w :
  (∃ e, is_job_error e = true
        ∧ clip_url exec json_loads url ranges outdir reencode output_format
            quality_height w = (Raise (Clipper e), w))
  ∨ ("ffmpeg" ∈ executables (sys w) ∧ "yt-dlp" ∈ executables (sys w)
     ∧ 0 < quality_height
     ∧ ∃ r wj,
         clip_job exec json_loads url ranges outdir reencode output_format
           quality_height (job_workdir outdir w) (job_world outdir w)
         = (r, wj)
         ∧ clip_url exec json_loads url ranges outdir reencode output_format
             quality_height w = (r, rmtree (job_workdir outdir w) wj)).
Proof.
  destruct (ensure_dependencies_cases w) as [(_ & Hdeps & H1 & H2) | [_ Hdeps]].
  - destruct (Z.leb_spec quality_height 0) as [Hq|Hq].
    + left. exists InvalidQuality. split; [done|].
      unfold clip_url, bind. rewrite Hdeps.
      by destruct (Z.leb_spec quality_height 0); [|lia].
    + right. split; [done|]. split; [done|]. split; [done|].
      rewrite clip_url_enters_job by done.
      destruct (clip_job _ _ _ _ _ _ _ _ _ _) as [r wj]. by exists r, wj.
  - left. eexists. split; [|unfold clip_url, bind; by rewrite Hdeps]. done.
Qed.


(** X12: the processes that a job starts are, in this order, the metadata
    query, the download and the extractions of the ranges in input order,
    or a beginning of this list: the engine is queried at most once, the
    source is downloaded at most once, and each range is extracted at most
    once from the one source; when the job returns, they have all run and
    the paths returned are those of the ranges, in input order. *)
Theorem clip_url_processes :
  ∀ url ranges outdir reencode output_format quality_height w,
    let outcome :=
      clip_url exec json_loads url ranges outdir reencode output_format
        quality_height w in
    let download :=
      download_cmd url (job_workdir outdir w)
        (_format_selector quality_height reencode).1
        (_format_selector quality_height reencode).2 in
    ∃ source,
      let cmd := fun x : ClipRange =>
        ffmpeg_cmd source x.1 x.2
          (clip_path outdir (now (sys w)) output_format x) reencode in
      (∃ t, calls outcome.2 = calls w ++ t
            ∧ t `prefix_of` (inspect_cmd url :: download :: (cmd <$> ranges)))
      ∧ (∀ outs, outcome.1 = Ok outs →
           outs = (clip_path outdir (now (sys w)) output_format <$> ranges)
           ∧ calls outcome.2
             = calls w ++ inspect_cmd url :: download :: (cmd <$> ranges)).
Proof.
  intros url ranges outdir reencode output_format quality_height w
    outcome download.
  destruct (clip_url_cases url ranges outdir reencode output_format
              quality_height w)
    as [(e' & He' & Hout) | (_ & _ & _ & r & wj & Hjob & Hout)];
    fold outcome in Hout; rewrite Hout; cbn [fst snd].
  - exists "". split; [|done].
    exists []. split; [by rewrite app_nil_r | apply prefix_nil].
  - destruct (clip_job_outcome _ _ _ _ _ _ _ _ _ _ Hjob)
      as (source & Htrace & _ & Hok).
    rewrite now_job_world, calls_job_world in *.
    exists source. split; [exact Htrace|].
    intros outs ->. destruct (Hok outs eq_refl) as (-> & Hc & _). by split.
Qed.

(** *** With an engine that writes its output *)

Lemma run_ffmpeg_ok_files source start end_ output_path reencode w w' :
  writes_output exec → keeps_files exec →
  _run_ffmpeg exec source start end_ output_path reencode w = (Ok tt, w') →
  (output_path ∉ files (sys w)) ∧ output_path ∈ files (sys w')
  ∧ ∀ p, p ∈ files (sys w) → p ∈ files (sys w').
Proof.
  intros Hwrites Hkeeps. unfold _run_ffmpeg, path_exists.
  case_bool_decide as Hfresh; [done|].
  unfold _run_command, subprocess_run.
  destruct (exec _ (sys w)) as [[code out] s'] eqn:Hexec.
  destruct (Z.eqb_spec code 0) as [->|]; [|done]. intros [= <-].
  split; [done|]. split; [by eapply Hwrites | intros p; by eapply Hkeeps].
Qed.

Lemma extracted_files source outdir run_stamp output_format reencode rs w w' :
  writes_output exec → keeps_files exec →
  extracted exec source outdir run_stamp output_format reencode rs w w' →
  (∀ p, p ∈ files (sys w) → p ∈ files (sys w'))
  ∧ Forall (fun r => (clip_path outdir run_stamp output_format r
                      ∉ files (sys w))
                     ∧ clip_path outdir run_stamp output_format r
                       ∈ files (sys w')) rs
  ∧ NoDup (clip_path outdir run_stamp output_format <$> rs).
Proof.
  intros Hwrites Hkeeps.
  induction 1 as [w|r rs w w1 w2 Hstep _ IH].
  - repeat split; [done | constructor | constructor].
  - destruct (run_ffmpeg_ok_files _ _ _ _ _ _ _ Hwrites Hkeeps Hstep)
      as (Hfresh & Hmade & Hmono).
    destruct IH as (Hmono' & Hall & Hnodup).
    repeat split; [by auto | |].
    + constructor; [by auto|].
      eapply Forall_impl; [exact Hall|]. intros r' [Hr1 Hr2].
      split; [|done]. intros Hin. by apply Hr1, Hmono.
    + rewrite fmap_cons. constructor; [|done].
      intros (r' & Heq & Hr')%list_elem_of_fmap.
      destruct (proj1 (Forall_forall _ _) Hall r' Hr') as [Hr1 _].
      by rewrite <- Heq in Hr1.
Qed.

(** X13: with an encode engine that writes its output when it exits with 0
    and removes no file, a job that returns has extracted every range to a
    path that did not exist when its extraction started: the paths returned
    are pairwise distinct, so are the ranges, and every path returned exists
    when [clip_url] returns.  A list that holds a range twice therefore
    never yields a successful job. *)
Theorem clip_url_success :
  ∀ url ranges outdir reencode output_format quality_height w outs wf,
    writes_output exec → keeps_files exec →
    clip_url exec json_loads url ranges outdir reencode output_format
      quality_height w = (Ok outs, wf) →
    outs = (clip_path outdir (now (sys w)) output_format <$> ranges)
    ∧ NoDup outs ∧ NoDup ranges
    ∧ ∀ p, p ∈ outs → p ∈ files (sys wf).
Proof.
  intros url ranges outdir reencode output_format quality_height w outs wf
    Hwrites Hkeeps Hrun.
  destruct (clip_url_cases url ranges outdir reencode output_format
              quality_height w)
    as [(e' & _ & Hout) | (_ & _ & _ & r & wj & Hjob & Hout)];
    rewrite Hout in Hrun; [done|]. injection Hrun as -> <-.
  destruct (clip_job_outcome _ _ _ _ _ _ _ _ _ _ Hjob)
    as (source & _ & _ & Hok).
  destruct (Hok outs eq_refl) as (Houts & _ & w2 & Hext).
  rewrite now_job_world in *.
  destruct (extracted_files _ _ _ _ _ _ _ _ Hwrites Hkeeps Hext)
    as (_ & Hall & Hnodup).
  rewrite <- Houts in Hnodup.
  split; [done|]. split; [done|]. split.
  - rewrite Houts in Hnodup. by apply NoDup_fmap_1 in Hnodup.
  - intros p Hp. rewrite Houts in Hp.
    apply list_elem_of_fmap in Hp as (x & -> & Hx).
    destruct (proj1 (Forall_forall _ _) Hall x Hx) as [_ Hin].
    apply elem_of_rmtree. split; [done | apply clip_path_outside].
Qed.

(** X14: an empty list of ranges is not rejected: once the height is found
    and the source downloaded and accepted, the job has started the
    metadata query and the download only, and returns the empty list. *)
Theorem clip_url_no_ranges :
  ∀ url outdir reencode output_format quality_height w data w1 source w2,
    "ffmpeg" ∈ executables (sys w) → "yt-dlp" ∈ executables (sys w) →
    0 < quality_height →
    _inspect_formats exec json_loads url (job_world outdir w) = (Ok data, w1) →
    quality_height ∈ comparison_set reencode data →
    _download_source exec url (job_workdir outdir w)
      (_format_selector quality_height reencode).1
      (_format_selector quality_height reencode).2 w1 = (Ok source, w2) →
    reencode = true
    ∨ Py.lstrip_char "." (path_suffix source) = output_format →
    clip_url exec json_loads url [] outdir reencode output_format
      quality_height w = (Ok [], rmtree (job_workdir outdir w) w2)
    ∧ calls w2 =
      calls w
      ++ [inspect_cmd url;
          download_cmd url (job_workdir outdir w)
            (_format_selector quality_height reencode).1
            (_format_selector quality_height reencode).2].
Proof.
  intros url outdir reencode output_format quality_height w data w1 source
    w2 H1 H2 Hq Hinspect Hq' Hdl Hfmt.
  destruct (clip_url_after_inspect exec json_loads url [] outdir reencode
              output_format quality_height w data w1 H1 H2 Hq Hinspect)
    as (Hcalls & r & w3 & Hrest & Hout).
  rewrite bool_decide_true in Hrest by done.
  destruct (download_and_extract_after_download exec url [] outdir reencode
              output_format quality_height (job_workdir outdir w)
              (now (sys w)) _ _ _ Hdl) as [Hcalls2 Heq].
  rewrite Heq in Hrest. clear Heq.
  assert (negb reencode
          && negb (String.eqb (Py.lstrip_char "." (path_suffix source))
                     output_format) = false) as Hok.
  { destruct Hfmt as [-> | ->%String.eqb_eq]; [done|].
    by rewrite andb_false_r. }
  rewrite Hok in Hrest. cbn [extract_ranges] in Hrest.
  injection Hrest as <- <-.
  split; [done|]. by rewrite Hcalls2, Hcalls, <- app_assoc.
Qed.

End Outcomes.

(** * The further properties on the doubles *)

Lemma exec_double_contract : writes_output exec_double ∧ keeps_files exec_double.
Proof.
  split.
  - intros source start end_ output_path reencode s out s'.
    unfold ffmpeg_cmd.
    destruct reencode; cbn [exec_double]; case_bool_decide; intros [= <- <-];
      cbn [files touch List.last]; apply elem_of_union; left;
      by apply elem_of_singleton.
  - intros source start end_ output_path reencode s code out s' p.
    unfold ffmpeg_cmd.
    destruct reencode; cbn [exec_double]; case_bool_decide;
      intros [= <- <- <-]; cbn [files touch]; intros Hp;
      apply elem_of_union; by right.
Qed.

Lemma clip_url_preconditions_witness :
  filter (fun name => name ∉ executables (sys world_bare)) ["ffmpeg"; "yt-dlp"]
  = ["yt-dlp"]
  ∧ clip_url exec_double json_double "u" [(10, 30)] "/out" false "mp4" 720
      world_bare
    = (Raise (Clipper (MissingDependency ["yt-dlp"])), world_bare)
  ∧ clip_url exec_double json_double "u" [(10, 30)] "/out" false "mp4" 0
      world_double
    = (Raise (Clipper InvalidQuality), world_double).
Proof.
  assert (filter (fun name => name ∉ executables (sys world_bare))
            ["ffmpeg"; "yt-dlp"] = ["yt-dlp"]) as Hbare
    by (vm_compute; reflexivity).
  assert (filter (fun name => name ∉ executables (sys world_double))
            ["ffmpeg"; "yt-dlp"] = []) as Hfull
    by (vm_compute; reflexivity).
  split; [exact Hbare|]. split.
  - pose proof (clip_url_preconditions exec_double json_double "u" [(10, 30)]
                  "/out" false "mp4" 720 world_bare) as H.
    cbv beta zeta in H. destruct H as (_ & H & _).
    rewrite Hbare in H. exact (proj1 (H ltac:(discriminate))).
  - pose proof (clip_url_preconditions exec_double json_double "u" [(10, 30)]
                  "/out" false "mp4" 0 world_double) as H.
    cbv beta zeta in H. destruct H as (_ & _ & H).
    exact (H Hfull ltac:(lia)).
Defined.




Lemma clip_url_processes_witness :
  let outcome :=
    clip_url exec_double json_double "u" [(10, 30); (50, 60)] "/out" false
      "mp4" 720 world_double in
  outcome.1
  = Ok ["/out/clip_10_30_20240101_120000_000001.mp4";
        "/out/clip_50_60_20240101_120000_000001.mp4"]
  ∧ ∃ source, length (calls outcome.2) = 4%nat
              ∧ calls outcome.2 !! 3%nat
                = Some (ffmpeg_cmd source 50 60
                          "/out/clip_50_60_20240101_120000_000001.mp4" false).
Proof.
  intros outcome.
  assert (outcome.1
          = Ok ["/out/clip_10_30_20240101_120000_000001.mp4";
                "/out/clip_50_60_20240101_120000_000001.mp4"]) as Hok
    by (vm_compute; reflexivity).
  split; [exact Hok|].
  pose proof (clip_url_processes exec_double json_double "u"
                [(10, 30); (50, 60)] "/out" false "mp4" 720 world_double)
    as H.
  cbv beta zeta in H. destruct H as (source & _ & H).
  destruct (H _ Hok) as [_ Hcalls].
  exists source. split; [exact (f_equal length Hcalls)|].
  exact (f_equal (fun l => l !! 3%nat) Hcalls).
Defined.

Lemma clip_url_success_witness :
  let outcome :=
    clip_url exec_double json_double "u" [(10, 30); (50, 60)] "/out" false
      "mp4" 720 world_double in
  outcome
  = (Ok ["/out/clip_10_30_20240101_120000_000001.mp4";
         "/out/clip_50_60_20240101_120000_000001.mp4"], outcome.2)
  ∧ "/out/clip_50_60_20240101_120000_000001.mp4" ∈ files (sys outcome.2)
  ∧ NoDup [(10, 30); (50, 60)].
Proof.
  intros outcome.
  assert (outcome
          = (Ok ["/out/clip_10_30_20240101_120000_000001.mp4";
                 "/out/clip_50_60_20240101_120000_000001.mp4"], outcome.2))
    as Hok by (vm_compute; reflexivity).
  split; [exact Hok|].
  destruct exec_double_contract as [Hwrites Hkeeps].
  destruct (clip_url_success exec_double json_double "u" [(10, 30); (50, 60)]
              "/out" false "mp4" 720 world_double _ _ Hwrites Hkeeps Hok)
    as (_ & _ & Hnodup & Hexist).
  split; [|exact Hnodup].
  apply Hexist. rewrite !elem_of_cons. auto.
Defined.

Lemma clip_url_no_ranges_witness :
  let w1 :=
    (_inspect_formats exec_double json_double "u"
       (job_world "/out" world_double)).2 in
  let w2 :=
    (_download_source exec_double "u" "/out/youtubeclipper_ab12cd34"
       (_format_selector 720 false).1 (_format_selector 720 false).2 w1).2 in
  0 < 720
  ∧ 720 ∈ comparison_set false inventory_doc
  ∧ clip_url exec_double json_double "u" [] "/out" false "mp4" 720
      world_double
    = (Ok [], rmtree "/out/youtubeclipper_ab12cd34" w2).
Proof.
  intros w1 w2.
  destruct world_double_tools as [Hffmpeg Hytdlp].
  assert (0 < 720) as Hq by lia.
  assert (_inspect_formats exec_double json_double "u"
            (job_world "/out" world_double) = (Ok inventory_doc, w1))
    as Hinspect by (vm_compute; reflexivity).
  assert (720 ∈ comparison_set false inventory_doc) as Hin
    by (apply (bool_decide_unpack _); by vm_compute).
  assert (_download_source exec_double "u" (job_workdir "/out" world_double)
            (_format_selector 720 false).1 (_format_selector 720 false).2 w1
          = (Ok "/out/youtubeclipper_ab12cd34/source.mp4", w2))
    as Hdl by (vm_compute; reflexivity).
  split; [exact Hq|]. split; [exact Hin|].
  exact (proj1 (clip_url_no_ranges exec_double json_double "u" "/out" false
                  "mp4" 720 world_double inventory_doc w1 _ w2
                  Hffmpeg Hytdlp Hq Hinspect Hin Hdl (or_intror eq_refl))).
Defined.
